(** * MonitorPro dashboard core: threshold evaluator, metric series
      generator, alert store and panel coordinator.

    A shallow embedding of the state logic of the dashboard page
    (the [DashboardProvider] component and the utility functions above it),
    with the properties of its specification stated over the embedding. *)

From Stdlib Require Import ZArith QArith Qround List String Bool Lia Lqa.
From Stdlib Require Import DecimalString DecimalPos DecimalZ Sorted.
Import ListNotations.

Local Open Scope Z_scope.

(** ** JavaScript numbers, as far as the dashboard compares them.

    A [number] is an IEEE double: not-a-number, an infinity, or a finite
    value.  Every finite double is a rational, and the relational operators
    of the language agree with the order of the rationals on finite values,
    so a finite value is carried as a [Q].  Any comparison with [NaN] is
    false. *)
Module JS.

Inductive number : Type :=
| NaN
| NegInf
| Fin (q : Q)
| PosInf.

(** [a >= b] *)
Definition ge (a b : number) : bool :=
  match a, b with
  | NaN, _ | _, NaN => false
  | PosInf, _ => true
  | _, NegInf => true
  | NegInf, _ => false
  | _, PosInf => false
  | Fin p, Fin q => match (p ?= q)%Q with Lt => false | _ => true end
  end.

(** [a < b] *)
Definition lt (a b : number) : bool :=
  match a, b with
  | NaN, _ | _, NaN => false
  | PosInf, _ => false
  | _, NegInf => false
  | NegInf, _ => true
  | _, PosInf => true
  | Fin p, Fin q => match (p ?= q)%Q with Lt => true | _ => false end
  end.

(** [a <= b] *)
Definition le (a b : number) : bool :=
  match a, b with
  | NaN, _ | _, NaN => false
  | NegInf, _ => true
  | _, PosInf => true
  | PosInf, _ => false
  | _, NegInf => false
  | Fin p, Fin q => match (p ?= q)%Q with Gt => false | _ => true end
  end.

(** An integer literal such as [70]. *)
Definition int (z : Z) : number := Fin (inject_Z z).

End JS.


(** ** Threshold evaluator *)

(** [getStatusColor]: the display colour of a metric value. *)
Definition getStatusColor (value warningThreshold criticalThreshold : JS.number) : string :=
  if JS.ge value criticalThreshold then "rgb(239, 68, 68)"%string
  else if JS.ge value warningThreshold then "rgb(234, 179, 8)"%string
  else "rgb(34, 197, 94)"%string.

(** [getStatusClass]: the CSS class of a metric value. *)
Definition getStatusClass (value warningThreshold criticalThreshold : JS.number) : string :=
  if JS.ge value criticalThreshold then "bg-red-500"%string
  else if JS.ge value warningThreshold then "bg-yellow-500"%string
  else "bg-green-500"%string.

(** The classification of the specification, written from its words:
    value >= critical gives Critical; else value >= warning gives Warning;
    else Normal.  The two functions above are compared with it. *)
Inductive Status : Type := Normal | Warning | Critical.

Definition classify_spec (value warning critical : JS.number) : Status :=
  if JS.ge value critical then Critical
  else if JS.ge value warning then Warning
  else Normal.

(** The companion maps from a classification to its colour and class. *)
Definition statusColor (s : Status) : string :=
  match s with
  | Critical => "rgb(239, 68, 68)"
  | Warning => "rgb(234, 179, 8)"
  | Normal => "rgb(34, 197, 94)"
  end.

Definition statusClass (s : Status) : string :=
  match s with
  | Critical => "bg-red-500"
  | Warning => "bg-yellow-500"
  | Normal => "bg-green-500"
  end.

(** The status text of [StatusCard] and [TemperatureCard], computed in
    place next to the colour:
    [value < warningThreshold ? "Normal" : value < criticalThreshold ? "Warning" : "Critical"] *)
Definition statusLabel (value warningThreshold criticalThreshold : JS.number) : string :=
  if JS.lt value warningThreshold then "Normal"%string
  else if JS.lt value criticalThreshold then "Warning"%string
  else "Critical"%string.

(** ** Metric series generator *)

(** A [Date] is carried as its [getTime()] value: milliseconds since the
    epoch. *)
Definition Date := Z.

Module Metric.

(** [ServerMetric].  The generator only ever stores integers in the
    numeric fields: every summand is a result of [getRandomValue] on
    integer bounds, far below 2^53. *)
Record ServerMetric : Type := {
  timestamp : Date;
  cpu : Z;
  memory : Z;
  disk : Z;
  temperature : Z;
  network : Z;
  errors : Z;
  users : Z;
  responseTime : Z
}.

End Metric.


(** Code that calls [Math.random()] is a state transformer over the number
    of calls made so far; [random k] is the result of the k-th call. *)
Definition Rand (A : Type) : Type := nat -> A * nat.

Definition ret {A} (a : A) : Rand A := fun k => (a, k).

Definition bind {A B} (m : Rand A) (f : A -> Rand B) : Rand B :=
  fun k => let (a, k') := m k in f a k'.

Declare Scope rand_scope.
Delimit Scope rand_scope with rand.
Notation "x <- m ;; f" := (bind m (fun x => f))
  (at level 61, m at next level, right associativity) : rand_scope.

Module Policy.
(** The two variables the [switch] on the time range assigns. *)
Record t : Type := { points : Z; interval : Z }.
End Policy.

(** The running base values of the eight metrics. *)
Record Bases : Type := {
  baseCpu : Z;
  baseMemory : Z;
  baseDisk : Z;
  baseTemp : Z;
  baseNetwork : Z;
  baseErrors : Z;
  baseUsers : Z;
  baseResponseTime : Z
}.

Section Generator.

(** The results of the successive calls of [Math.random()]. *)
Variable random : nat -> Q.

Definition Math_random : Rand Q := fun k => (random k, S k).

(** [Math.floor(Math.random() * (max - min + 1)) + min].  The product is
    exact here and rounded to a double in the program, so for one and the
    same draw the integer returned can differ by one (the double nearest
    4/7, times 7, rounds up to 4).  For integer operands as small as the
    page's the rounded product of a draw below 1 and [n] is still below
    [n], so the results of the program are results of this function for a
    draw in the same range, within the same bounds. *)
Definition getRandomValue (min max : Z) : Rand Z :=
  (r <- Math_random ;;
   ret (Qfloor (r * inject_Z (max - min + 1)) + min))%rand.

(** The [switch (timeRange)] at the head of [generateMockData]. *)
Definition rangePolicy (timeRange : string) : Policy.t :=
  if (timeRange =? "1h")%string then
    {| Policy.points := 60; Policy.interval := 60 * 1000 |}
  else if (timeRange =? "24h")%string then
    {| Policy.points := 24; Policy.interval := 60 * 60 * 1000 |}
  else if (timeRange =? "7d")%string then
    {| Policy.points := 7; Policy.interval := 24 * 60 * 60 * 1000 |}
  else if (timeRange =? "30d")%string then
    {| Policy.points := 30; Policy.interval := 24 * 60 * 60 * 1000 |}
  else
    {| Policy.points := 24; Policy.interval := 60 * 60 * 1000 |}.

Definition initialBases : Rand Bases :=
  (c <- getRandomValue 30 60 ;;
   m <- getRandomValue 40 70 ;;
   d <- getRandomValue 50 80 ;;
   t <- getRandomValue 20 30 ;;
   n <- getRandomValue 30 70 ;;
   e <- getRandomValue 0 10 ;;
   u <- getRandomValue 50 200 ;;
   r <- getRandomValue 100 500 ;;
   ret {| baseCpu := c; baseMemory := m; baseDisk := d; baseTemp := t;
          baseNetwork := n; baseErrors := e; baseUsers := u;
          baseResponseTime := r |})%rand.

(** One pass through the body of the [for] loop, at index [i]: the sample
    pushed onto [data] and the drifted base values. *)
Definition iteration (now : Date) (p : Policy.t) (spikePoint i : Z)
    (b : Bases) (data : list Metric.ServerMetric) : Rand (Bases * list Metric.ServerMetric) :=
  (let timestamp := now - (Policy.points p - i - 1) * Policy.interval p in
   fluctuation <- getRandomValue (-5) 5 ;;
   cpuSpike <- (if i =? spikePoint then getRandomValue 20 40 else ret 0) ;;
   memorySpike <- (if i =? spikePoint then getRandomValue 15 30 else ret 0) ;;
   rDisk <- getRandomValue (-2) 2 ;;
   rTemp <- getRandomValue (-3) 3 ;;
   rNetwork <- getRandomValue (-10) 10 ;;
   rErrors <- getRandomValue (-2) 3 ;;
   rUsers <- getRandomValue (-20) 20 ;;
   rResponse <- getRandomValue (-50) 50 ;;
   let sample :=
     {| Metric.timestamp := timestamp;
        Metric.cpu := Z.min 100 (Z.max 0 (baseCpu b + fluctuation + cpuSpike));
        Metric.memory := Z.min 100 (Z.max 0 (baseMemory b + fluctuation + memorySpike));
        Metric.disk := Z.min 100 (Z.max 0 (baseDisk b + rDisk));
        Metric.temperature := Z.min 50 (Z.max 15 (baseTemp b + rTemp));
        Metric.network := Z.min 100 (Z.max 0 (baseNetwork b + rNetwork));
        Metric.errors := Z.max 0 (baseErrors b + rErrors);
        Metric.users := Z.max 0 (baseUsers b + rUsers);
        Metric.responseTime := Z.max 50 (baseResponseTime b + rResponse) |} in
   dCpu <- getRandomValue (-2) 2 ;;
   dMemory <- getRandomValue (-1) 2 ;;
   dDisk <- getRandomValue 0 1 ;;
   dTemp <- getRandomValue (-1) 1 ;;
   dNetwork <- getRandomValue (-5) 5 ;;
   dErrors <- getRandomValue (-1) 1 ;;
   dUsers <- getRandomValue (-10) 10 ;;
   dResponse <- getRandomValue (-20) 20 ;;
   ret ({| baseCpu := baseCpu b + dCpu;
           baseMemory := baseMemory b + dMemory;
           baseDisk := baseDisk b + dDisk;
           baseTemp := baseTemp b + dTemp;
           baseNetwork := baseNetwork b + dNetwork;
           baseErrors := baseErrors b + dErrors;
           baseUsers := baseUsers b + dUsers;
           baseResponseTime := baseResponseTime b + dResponse |},
        data ++ [sample]))%rand.

(** [for (let i = 0; i < points; i++)], entered at index [i] with
    [remaining] passes still to run ([remaining] is [points - i]; the
    index only grows by one, so the loop runs exactly [points] times). *)
Fixpoint loop (now : Date) (p : Policy.t) (spikePoint : Z) (remaining : nat)
    (i : Z) (b : Bases) (data : list Metric.ServerMetric) : Rand (list Metric.ServerMetric) :=
  match remaining with
  | O => ret data
  | S remaining' =>
      (st <- iteration now p spikePoint i b data ;;
       loop now p spikePoint remaining' (i + 1) (fst st) (snd st))%rand
  end.

Definition generateMockData_rand (now : Date) (timeRange : string)
    : Rand (list Metric.ServerMetric) :=
  (let p := rangePolicy timeRange in
   b <- initialBases ;;
   spikePoint <- getRandomValue 0 (Policy.points p - 1) ;;
   loop now p spikePoint (Z.to_nat (Policy.points p)) 0 b [])%rand.

(** [generateMockData(timeRange)], called at time [now], with the random
    source read from its first result on. *)
Definition generateMockData (now : Date) (timeRange : string) : list Metric.ServerMetric :=
  fst (generateMockData_rand now timeRange O).

End Generator.

(** The time stamps of a series, in order. *)
Definition timestamps (data : list Metric.ServerMetric) : list Date :=
  map Metric.timestamp data.

(** Each time stamp of the list is [interval] after the one before it. *)
Fixpoint spacedBy (interval : Z) (ts : list Date) : Prop :=
  match ts with
  | t1 :: (t2 :: _) as rest => t2 - t1 = interval /\ spacedBy interval rest
  | _ => True
  end.

(** The indices [i], [i + 1], ... that [n] passes of the loop go through. *)
Fixpoint indices (i : Z) (n : nat) : list Z :=
  match n with
  | O => []
  | S n' => i :: indices (i + 1) n'
  end.

(** [Math.random()] returns a number from 0 (inclusive) up to 1 (exclusive). *)
Definition unitInterval (random : nat -> Q) : Prop :=
  forall k, (0 <= random k)%Q /\ (random k < 1)%Q.

(** ** Alerts, thresholds and servers *)

Inductive Severity : Type := low | medium | high.

Module Alert.

Record Alert : Type := {
  id : string;
  timestamp : Date;
  severity : Severity;
  source : string;
  description : string;
  acknowledged : bool;
  dismissed : bool
}.

(** [{ ...alert, dismissed: true }] *)
Definition with_dismissed (v : bool) (a : Alert) : Alert :=
  {| id := id a; timestamp := timestamp a; severity := severity a;
     source := source a; description := description a;
     acknowledged := acknowledged a; dismissed := v |}.

(** [{ ...alert, acknowledged: true }] *)
Definition with_acknowledged (v : bool) (a : Alert) : Alert :=
  {| id := id a; timestamp := timestamp a; severity := severity a;
     source := source a; description := description a;
     acknowledged := v; dismissed := dismissed a |}.

End Alert.

Module Threshold.

(** One entry of [Thresholds]: [{ warning: number; critical: number }]. *)
Record t : Type := { warning : JS.number; critical : JS.number }.

(** The second parameter of [updateThreshold]: ["warning" | "critical"]. *)
Inductive Level : Type := Warning | Critical.

Definition Level_eqb (a b : Level) : bool :=
  match a, b with
  | Warning, Warning | Critical, Critical => true
  | _, _ => false
  end.

Definition get (level : Level) (th : t) : JS.number :=
  match level with
  | Warning => warning th
  | Critical => critical th
  end.

(** [{ ...th, [level]: value }] *)
Definition set (level : Level) (value : JS.number) (th : t) : t :=
  match level with
  | Warning => {| warning := value; critical := critical th |}
  | Critical => {| warning := warning th; critical := value |}
  end.

End Threshold.

Module Thresholds.

Record Thresholds : Type := {
  cpu : Threshold.t;
  memory : Threshold.t;
  disk : Threshold.t;
  temperature : Threshold.t;
  network : Threshold.t;
  errors : Threshold.t
}.

(** [keyof Thresholds] *)
Inductive Key : Type := Cpu | Memory | Disk | Temperature | Network | Errors.

Definition Key_eqb (a b : Key) : bool :=
  match a, b with
  | Cpu, Cpu | Memory, Memory | Disk, Disk
  | Temperature, Temperature | Network, Network | Errors, Errors => true
  | _, _ => false
  end.

(** [thresholds[key]] *)
Definition get (key : Key) (ts : Thresholds) : Threshold.t :=
  match key with
  | Cpu => cpu ts
  | Memory => memory ts
  | Disk => disk ts
  | Temperature => temperature ts
  | Network => network ts
  | Errors => errors ts
  end.

(** [{ ...thresholds, [key]: th }] *)
Definition set (key : Key) (th : Threshold.t) (ts : Thresholds) : Thresholds :=
  match key with
  | Cpu =>
      {| cpu := th; memory := memory ts; disk := disk ts;
         temperature := temperature ts; network := network ts; errors := errors ts |}
  | Memory =>
      {| cpu := cpu ts; memory := th; disk := disk ts;
         temperature := temperature ts; network := network ts; errors := errors ts |}
  | Disk =>
      {| cpu := cpu ts; memory := memory ts; disk := th;
         temperature := temperature ts; network := network ts; errors := errors ts |}
  | Temperature =>
      {| cpu := cpu ts; memory := memory ts; disk := disk ts;
         temperature := th; network := network ts; errors := errors ts |}
  | Network =>
      {| cpu := cpu ts; memory := memory ts; disk := disk ts;
         temperature := temperature ts; network := th; errors := errors ts |}
  | Errors =>
      {| cpu := cpu ts; memory := memory ts; disk := disk ts;
         temperature := temperature ts; network := network ts; errors := th |}
  end.

Definition pair (w c : Z) : Threshold.t :=
  {| Threshold.warning := JS.int w; Threshold.critical := JS.int c |}.

(** The initial value of the [thresholds] state. *)
Definition initial : Thresholds :=
  {| cpu := pair 70 90;
     memory := pair 70 90;
     disk := pair 70 90;
     temperature := pair 30 40;
     network := pair 80 95;
     errors := pair 5 15 |}.

End Thresholds.

Definition generateMockAlerts (now : Date) : list Alert.Alert :=
  [ {| Alert.id := "alert-001";
       Alert.timestamp := now - 5 * 60 * 1000;
       Alert.severity := high;
       Alert.source := "Web Server 1";
       Alert.description := "CPU usage exceeded 90% for 5 minutes";
       Alert.acknowledged := false;
       Alert.dismissed := false |};
    {| Alert.id := "alert-002";
       Alert.timestamp := now - 15 * 60 * 1000;
       Alert.severity := medium;
       Alert.source := "API Server";
       Alert.description := "Memory usage at 75%, approaching threshold";
       Alert.acknowledged := true;
       Alert.dismissed := false |};
    {| Alert.id := "alert-003";
       Alert.timestamp := now - 45 * 60 * 1000;
       Alert.severity := low;
       Alert.source := "Database Replica";
       Alert.description := "Replication lag increased to 5 seconds";
       Alert.acknowledged := false;
       Alert.dismissed := false |};
    {| Alert.id := "alert-004";
       Alert.timestamp := now - 120 * 60 * 1000;
       Alert.severity := high;
       Alert.source := "Cache Server";
       Alert.description := "Service restarted unexpectedly";
       Alert.acknowledged := false;
       Alert.dismissed := false |};
    {| Alert.id := "alert-005";
       Alert.timestamp := now - 180 * 60 * 1000;
       Alert.severity := high;
       Alert.source := "Backup Server";
       Alert.description := "Server unreachable, backup process failed";
       Alert.acknowledged := true;
       Alert.dismissed := false |} ]%string.

(** ** The dashboard state

    The fourteen [useState] cells of [DashboardProvider].  A handler reads
    the cells of the render it was created in (the argument [s]) and queues
    its writes, which React applies in order once the handler returns; so a
    handler is a function from the state it read to the state of the next
    render. *)
Record Dashboard : Type := {
  darkMode : bool;
  timeRange : string;
  showSidebar : bool;
  alerts : list Alert.Alert;
  showNotifications : bool;
  showSettings : bool;
  expandedWidget : option string;
  activeSidebarItem : string;
  showServersPanel : bool;
  showAlertsPanel : bool;
  showUsersPanel : bool;
  showReportsPanel : bool;
  isLandingPage : bool;
  thresholds : Thresholds.Thresholds
}.

(** The setters returned by [useState], one per cell. *)
Definition setDarkMode (v : bool) (s : Dashboard) : Dashboard :=
  {| darkMode := v; timeRange := timeRange s; showSidebar := showSidebar s;
     alerts := alerts s; showNotifications := showNotifications s;
     showSettings := showSettings s; expandedWidget := expandedWidget s;
     activeSidebarItem := activeSidebarItem s;
     showServersPanel := showServersPanel s;
     showAlertsPanel := showAlertsPanel s;
     showUsersPanel := showUsersPanel s;
     showReportsPanel := showReportsPanel s;
     isLandingPage := isLandingPage s; thresholds := thresholds s |}.

Definition setTimeRange (v : string) (s : Dashboard) : Dashboard :=
  {| darkMode := darkMode s; timeRange := v; showSidebar := showSidebar s;
     alerts := alerts s; showNotifications := showNotifications s;
     showSettings := showSettings s; expandedWidget := expandedWidget s;
     activeSidebarItem := activeSidebarItem s;
     showServersPanel := showServersPanel s;
     showAlertsPanel := showAlertsPanel s;
     showUsersPanel := showUsersPanel s;
     showReportsPanel := showReportsPanel s;
     isLandingPage := isLandingPage s; thresholds := thresholds s |}.

Definition setShowSidebar (v : bool) (s : Dashboard) : Dashboard :=
  {| darkMode := darkMode s; timeRange := timeRange s; showSidebar := v;
     alerts := alerts s; showNotifications := showNotifications s;
     showSettings := showSettings s; expandedWidget := expandedWidget s;
     activeSidebarItem := activeSidebarItem s;
     showServersPanel := showServersPanel s;
     showAlertsPanel := showAlertsPanel s;
     showUsersPanel := showUsersPanel s;
     showReportsPanel := showReportsPanel s;
     isLandingPage := isLandingPage s; thresholds := thresholds s |}.

Definition setAlerts (v : list Alert.Alert) (s : Dashboard) : Dashboard :=
  {| darkMode := darkMode s; timeRange := timeRange s;
     showSidebar := showSidebar s; alerts := v;
     showNotifications := showNotifications s;
     showSettings := showSettings s; expandedWidget := expandedWidget s;
     activeSidebarItem := activeSidebarItem s;
     showServersPanel := showServersPanel s;
     showAlertsPanel := showAlertsPanel s;
     showUsersPanel := showUsersPanel s;
     showReportsPanel := showReportsPanel s;
     isLandingPage := isLandingPage s; thresholds := thresholds s |}.

Definition setShowNotifications (v : bool) (s : Dashboard) : Dashboard :=
  {| darkMode := darkMode s; timeRange := timeRange s;
     showSidebar := showSidebar s; alerts := alerts s;
     showNotifications := v; showSettings := showSettings s;
     expandedWidget := expandedWidget s;
     activeSidebarItem := activeSidebarItem s;
     showServersPanel := showServersPanel s;
     showAlertsPanel := showAlertsPanel s;
     showUsersPanel := showUsersPanel s;
     showReportsPanel := showReportsPanel s;
     isLandingPage := isLandingPage s; thresholds := thresholds s |}.

Definition setShowSettings (v : bool) (s : Dashboard) : Dashboard :=
  {| darkMode := darkMode s; timeRange := timeRange s;
     showSidebar := showSidebar s; alerts := alerts s;
     showNotifications := showNotifications s; showSettings := v;
     expandedWidget := expandedWidget s;
     activeSidebarItem := activeSidebarItem s;
     showServersPanel := showServersPanel s;
     showAlertsPanel := showAlertsPanel s;
     showUsersPanel := showUsersPanel s;
     showReportsPanel := showReportsPanel s;
     isLandingPage := isLandingPage s; thresholds := thresholds s |}.

Definition setExpandedWidget (v : option string) (s : Dashboard) : Dashboard :=
  {| darkMode := darkMode s; timeRange := timeRange s;
     showSidebar := showSidebar s; alerts := alerts s;
     showNotifications := showNotifications s;
     showSettings := showSettings s; expandedWidget := v;
     activeSidebarItem := activeSidebarItem s;
     showServersPanel := showServersPanel s;
     showAlertsPanel := showAlertsPanel s;
     showUsersPanel := showUsersPanel s;
     showReportsPanel := showReportsPanel s;
     isLandingPage := isLandingPage s; thresholds := thresholds s |}.

Definition setActiveSidebarItem (v : string) (s : Dashboard) : Dashboard :=
  {| darkMode := darkMode s; timeRange := timeRange s;
     showSidebar := showSidebar s; alerts := alerts s;
     showNotifications := showNotifications s;
     showSettings := showSettings s; expandedWidget := expandedWidget s;
     activeSidebarItem := v; showServersPanel := showServersPanel s;
     showAlertsPanel := showAlertsPanel s;
     showUsersPanel := showUsersPanel s;
     showReportsPanel := showReportsPanel s;
     isLandingPage := isLandingPage s; thresholds := thresholds s |}.

Definition setShowServersPanel (v : bool) (s : Dashboard) : Dashboard :=
  {| darkMode := darkMode s; timeRange := timeRange s;
     showSidebar := showSidebar s; alerts := alerts s;
     showNotifications := showNotifications s;
     showSettings := showSettings s; expandedWidget := expandedWidget s;
     activeSidebarItem := activeSidebarItem s; showServersPanel := v;
     showAlertsPanel := showAlertsPanel s;
     showUsersPanel := showUsersPanel s;
     showReportsPanel := showReportsPanel s;
     isLandingPage := isLandingPage s; thresholds := thresholds s |}.

Definition setShowAlertsPanel (v : bool) (s : Dashboard) : Dashboard :=
  {| darkMode := darkMode s; timeRange := timeRange s;
     showSidebar := showSidebar s; alerts := alerts s;
     showNotifications := showNotifications s;
     showSettings := showSettings s; expandedWidget := expandedWidget s;
     activeSidebarItem := activeSidebarItem s;
     showServersPanel := showServersPanel s; showAlertsPanel := v;
     showUsersPanel := showUsersPanel s;
     showReportsPanel := showReportsPanel s;
     isLandingPage := isLandingPage s; thresholds := thresholds s |}.

Definition setShowUsersPanel (v : bool) (s : Dashboard) : Dashboard :=
  {| darkMode := darkMode s; timeRange := timeRange s;
     showSidebar := showSidebar s; alerts := alerts s;
     showNotifications := showNotifications s;
     showSettings := showSettings s; expandedWidget := expandedWidget s;
     activeSidebarItem := activeSidebarItem s;
     showServersPanel := showServersPanel s;
     showAlertsPanel := showAlertsPanel s; showUsersPanel := v;
     showReportsPanel := showReportsPanel s;
     isLandingPage := isLandingPage s; thresholds := thresholds s |}.

Definition setShowReportsPanel (v : bool) (s : Dashboard) : Dashboard :=
  {| darkMode := darkMode s; timeRange := timeRange s;
     showSidebar := showSidebar s; alerts := alerts s;
     showNotifications := showNotifications s;
     showSettings := showSettings s; expandedWidget := expandedWidget s;
     activeSidebarItem := activeSidebarItem s;
     showServersPanel := showServersPanel s;
     showAlertsPanel := showAlertsPanel s;
     showUsersPanel := showUsersPanel s; showReportsPanel := v;
     isLandingPage := isLandingPage s; thresholds := thresholds s |}.

Definition setIsLandingPage (v : bool) (s : Dashboard) : Dashboard :=
  {| darkMode := darkMode s; timeRange := timeRange s;
     showSidebar := showSidebar s; alerts := alerts s;
     showNotifications := showNotifications s;
     showSettings := showSettings s; expandedWidget := expandedWidget s;
     activeSidebarItem := activeSidebarItem s;
     showServersPanel := showServersPanel s;
     showAlertsPanel := showAlertsPanel s;
     showUsersPanel := showUsersPanel s;
     showReportsPanel := showReportsPanel s; isLandingPage := v;
     thresholds := thresholds s |}.

Definition setThresholds (v : Thresholds.Thresholds) (s : Dashboard) : Dashboard :=
  {| darkMode := darkMode s; timeRange := timeRange s;
     showSidebar := showSidebar s; alerts := alerts s;
     showNotifications := showNotifications s;
     showSettings := showSettings s; expandedWidget := expandedWidget s;
     activeSidebarItem := activeSidebarItem s;
     showServersPanel := showServersPanel s;
     showAlertsPanel := showAlertsPanel s;
     showUsersPanel := showUsersPanel s;
     showReportsPanel := showReportsPanel s;
     isLandingPage := isLandingPage s; thresholds := v |}.

(** The state of the first render, when the provider is mounted at [now]. *)
Definition initialDashboard (now : Date) : Dashboard :=
  {| darkMode := false;
     timeRange := "24h";
     showSidebar := true;
     alerts := generateMockAlerts now;
     showNotifications := false;
     showSettings := false;
     expandedWidget := None;
     activeSidebarItem := "dashboard";
     showServersPanel := false;
     showAlertsPanel := false;
     showUsersPanel := false;
     showReportsPanel := false;
     isLandingPage := true;
     thresholds := Thresholds.initial |}.

Definition toggleDarkMode (s : Dashboard) : Dashboard :=
  setDarkMode (negb (darkMode s)) s.

Definition toggleSidebar (s : Dashboard) : Dashboard :=
  setShowSidebar (negb (showSidebar s)) s.

Definition toggleNotifications (s : Dashboard) : Dashboard :=
  setShowNotifications (negb (showNotifications s)) s.

Definition toggleSettings (s : Dashboard) : Dashboard :=
  setShowSettings (negb (showSettings s)) s.

Definition toggleServersPanel (s : Dashboard) : Dashboard :=
  let s1 := setShowServersPanel (negb (showServersPanel s)) s in
  if negb (showServersPanel s) then
    setShowReportsPanel false (setShowUsersPanel false (setShowAlertsPanel false s1))
  else s1.

Definition toggleAlertsPanel (s : Dashboard) : Dashboard :=
  let s1 := setShowAlertsPanel (negb (showAlertsPanel s)) s in
  if negb (showAlertsPanel s) then
    setShowReportsPanel false (setShowUsersPanel false (setShowServersPanel false s1))
  else s1.

Definition toggleUsersPanel (s : Dashboard) : Dashboard :=
  let s1 := setShowUsersPanel (negb (showUsersPanel s)) s in
  if negb (showUsersPanel s) then
    setShowReportsPanel false (setShowAlertsPanel false (setShowServersPanel false s1))
  else s1.

Definition toggleReportsPanel (s : Dashboard) : Dashboard :=
  let s1 := setShowReportsPanel (negb (showReportsPanel s)) s in
  if negb (showReportsPanel s) then
    setShowUsersPanel false (setShowAlertsPanel false (setShowServersPanel false s1))
  else s1.

(** [alerts.map((alert) => (alert.id === id ? { ...alert, dismissed: true } : alert))] *)
Definition dismissIn (id : string) (l : list Alert.Alert) : list Alert.Alert :=
  map (fun alert =>
         if (Alert.id alert =? id)%string then Alert.with_dismissed true alert
         else alert) l.

(** [alerts.map((alert) => (alert.id === id ? { ...alert, acknowledged: true } : alert))] *)
Definition acknowledgeIn (id : string) (l : list Alert.Alert) : list Alert.Alert :=
  map (fun alert =>
         if (Alert.id alert =? id)%string then Alert.with_acknowledged true alert
         else alert) l.

Definition dismissAlert (id : string) (s : Dashboard) : Dashboard :=
  setAlerts (dismissIn id (alerts s)) s.

Definition acknowledgeAlert (id : string) (s : Dashboard) : Dashboard :=
  setAlerts (acknowledgeIn id (alerts s)) s.

Definition updateThreshold (key : Thresholds.Key) (level : Threshold.Level)
    (value : JS.number) (s : Dashboard) : Dashboard :=
  setThresholds
    (Thresholds.set key
       (Threshold.set level value (Thresholds.get key (thresholds s)))
       (thresholds s))
    s.

(** [alerts.filter((alert) => !alert.acknowledged && !alert.dismissed).length] *)
Definition notificationCountOf (l : list Alert.Alert) : nat :=
  List.length (filter (fun alert =>
                    negb (Alert.acknowledged alert) && negb (Alert.dismissed alert)) l).

Definition notificationCount (s : Dashboard) : nat :=
  notificationCountOf (alerts s).

(** [AlertsPanel]: [alerts.filter((alert) => !alert.dismissed)] *)
Definition activeAlertsOf (l : list Alert.Alert) : list Alert.Alert :=
  filter (fun alert => negb (Alert.dismissed alert)) l.

Definition activeAlerts (s : Dashboard) : list Alert.Alert :=
  activeAlertsOf (alerts s).

(** [NotificationsPanel]:
    [alerts.filter((alert) => !alert.acknowledged && !alert.dismissed)] *)
Definition notificationAlerts (s : Dashboard) : list Alert.Alert :=
  filter (fun alert =>
            negb (Alert.acknowledged alert) && negb (Alert.dismissed alert))
         (alerts s).

(** [Sidebar.handleItemClick].  The panel toggles read cells that
    [setActiveSidebarItem] does not write, so running them on the state
    it produced reads the values of the current render. *)
Definition handleItemClick (item : string) (s : Dashboard) : Dashboard :=
  let s1 := setActiveSidebarItem item s in
  if (item =? "dashboard")%string then setIsLandingPage false s1
  else if (item =? "servers")%string then toggleServersPanel s1
  else if (item =? "alerts")%string then toggleAlertsPanel s1
  else if (item =? "users")%string then toggleUsersPanel s1
  else if (item =? "reports")%string then toggleReportsPanel s1
  else s1.

(** *** The alert timer *)

Definition sources : list string :=
  [ "Web Server 1"; "API Server"; "Database Primary"; "Database Replica";
    "Cache Server"; "Backup Server" ]%string.

Definition severities : list Severity := [ low; medium; high ].

Definition descriptions : list string :=
  [ "CPU usage spike detected";
    "Memory usage approaching threshold";
    "Disk space running low";
    "High network latency detected";
    "Error rate increased";
    "Service restarted unexpectedly";
    "Connection timeout";
    "Database query performance degraded" ]%string.

(** [arr[Math.floor(r * arr.length)]]; [Math.random()] is below 1, so the
    index is within the array and the default is never returned. *)
Definition pick {A} (default : A) (arr : list A) (r : Q) : A :=
  nth (Z.to_nat (Qfloor (r * inject_Z (Z.of_nat (List.length arr))))) arr default.

(** The literal [0.3]: the double nearest to three tenths,
    5404319552844595 / 2^54. *)
Definition threeTenths : Q := 5404319552844595 # 18014398509481984.

(** [`alert-${Date.now()}`] *)
Definition timerAlertId (dateNow : Date) : string :=
  "alert-" ++ NilZero.string_of_int (Z.to_int dateNow).

(** The callback of the 30 second interval.  [r0] to [r3] are the results of
    its calls of [Math.random()], [dateNow] that of [Date.now()] and
    [newDate] that of [new Date()].  The write is the functional update
    [setAlerts((prevAlerts) => [newAlert, ...prevAlerts])]. *)
Definition alertTimer (dateNow newDate : Date) (r0 r1 r2 r3 : Q)
    (s : Dashboard) : Dashboard :=
  let shouldGenerateAlert :=
    match (r0 ?= threeTenths)%Q with Lt => true | _ => false end in
  if shouldGenerateAlert then
    let newAlert :=
      {| Alert.id := timerAlertId dateNow;
         Alert.timestamp := newDate;
         Alert.severity := pick low severities r1;
         Alert.source := pick ""%string sources r2;
         Alert.description := pick ""%string descriptions r3;
         Alert.acknowledged := false;
         Alert.dismissed := false |} in
    setAlerts (newAlert :: alerts s) s
  else s.

(** *** The events of the page *)

Inductive Action : Type :=
| ToggleDarkMode
| SetTimeRange (range : string)
| ToggleSidebar
| DismissAlert (id : string)
| AcknowledgeAlert (id : string)
| ToggleNotifications
| ToggleSettings
| UpdateThreshold (key : Thresholds.Key) (level : Threshold.Level) (value : JS.number)
| SetExpandedWidget (id : option string)
| SetActiveSidebarItem (item : string)
| ToggleServersPanel
| ToggleAlertsPanel
| ToggleUsersPanel
| ToggleReportsPanel
| SetIsLandingPage (value : bool)
| HandleItemClick (item : string)
| AlertTimer (dateNow newDate : Date) (r0 r1 r2 r3 : Q).

Definition step (a : Action) (s : Dashboard) : Dashboard :=
  match a with
  | ToggleDarkMode => toggleDarkMode s
  | SetTimeRange range => setTimeRange range s
  | ToggleSidebar => toggleSidebar s
  | DismissAlert id => dismissAlert id s
  | AcknowledgeAlert id => acknowledgeAlert id s
  | ToggleNotifications => toggleNotifications s
  | ToggleSettings => toggleSettings s
  | UpdateThreshold key level value => updateThreshold key level value s
  | SetExpandedWidget id => setExpandedWidget id s
  | SetActiveSidebarItem item => setActiveSidebarItem item s
  | ToggleServersPanel => toggleServersPanel s
  | ToggleAlertsPanel => toggleAlertsPanel s
  | ToggleUsersPanel => toggleUsersPanel s
  | ToggleReportsPanel => toggleReportsPanel s
  | SetIsLandingPage value => setIsLandingPage value s
  | HandleItemClick item => handleItemClick item s
  | AlertTimer dateNow newDate r0 r1 r2 r3 => alertTimer dateNow newDate r0 r1 r2 r3 s
  end.

(** The states the page can be in: the first render, and what any event
    makes of a state the page can be in. *)
Inductive reachable (now : Date) : Dashboard -> Prop :=
| reachable_init : reachable now (initialDashboard now)
| reachable_step a s : reachable now s -> reachable now (step a s).

(** The same states, with the clock in view: [clock] is a time no timer
    callback has run at or after.  The callbacks of one interval run at
    strictly later and later values of [Date.now()]. *)
Inductive reachableClocked (now : Date) : Date -> Dashboard -> Prop :=
| clocked_init clock : reachableClocked now clock (initialDashboard now)
| clocked_event a s clock :
    reachableClocked now clock s ->
    (forall dateNow newDate r0 r1 r2 r3, a <> AlertTimer dateNow newDate r0 r1 r2 r3) ->
    reachableClocked now clock (step a s)
| clocked_timer dateNow newDate r0 r1 r2 r3 s clock :
    reachableClocked now clock s ->
    clock <= dateNow ->
    reachableClocked now (dateNow + 1)
      (step (AlertTimer dateNow newDate r0 r1 r2 r3) s).

(** The number of right-hand panels that are shown. *)
Definition panelsShown (s : Dashboard) : nat :=
  (Nat.b2n (showServersPanel s) + Nat.b2n (showAlertsPanel s)
   + Nat.b2n (showUsersPanel s) + Nat.b2n (showReportsPanel s))%nat.

(** The four right-hand panels, to speak of them together. *)
Inductive Panel : Type := ServersPanel | AlertsPanel | UsersPanel | ReportsPanel.

Definition Panel_eqb (p q : Panel) : bool :=
  match p, q with
  | ServersPanel, ServersPanel | AlertsPanel, AlertsPanel
  | UsersPanel, UsersPanel | ReportsPanel, ReportsPanel => true
  | _, _ => false
  end.

Definition shown (p : Panel) (s : Dashboard) : bool :=
  match p with
  | ServersPanel => showServersPanel s
  | AlertsPanel => showAlertsPanel s
  | UsersPanel => showUsersPanel s
  | ReportsPanel => showReportsPanel s
  end.

Definition togglePanel (p : Panel) (s : Dashboard) : Dashboard :=
  match p with
  | ServersPanel => toggleServersPanel s
  | AlertsPanel => toggleAlertsPanel s
  | UsersPanel => toggleUsersPanel s
  | ReportsPanel => toggleReportsPanel s
  end.

(** The identifiers of a collection of alerts, in order. *)
Definition alertIds (l : list Alert.Alert) : list string := map Alert.id l.

(** The number of alerts that are neither acknowledged nor dismissed,
    counted one alert at a time as the specification words it. *)
Fixpoint countUnread (l : list Alert.Alert) : nat :=
  match l with
  | [] => O
  | alert :: rest =>
      match Alert.acknowledged alert, Alert.dismissed alert with
      | false, false => S (countUnread rest)
      | _, _ => countUnread rest
      end
  end.

(** ** The dashboard view *)

(** [Dashboard]: [data.length > 0 ? data[data.length - 1] : null] *)
Definition latestData (data : list Metric.ServerMetric) : option Metric.ServerMetric :=
  if (0 <? List.length data)%nat then nth_error data (List.length data - 1)
  else None.

(** [ServersPanel], the last octet of the address shown for a server:
    [Math.floor(Math.random() * 255)] *)
Definition serverIpOctet (r : Q) : Z := Qfloor (r * inject_Z 255).

(** A sample with its time stamp moved by [d] milliseconds. *)
Definition shifted (d : Z) (sample : Metric.ServerMetric) : Metric.ServerMetric :=
  {| Metric.timestamp := Metric.timestamp sample + d;
     Metric.cpu := Metric.cpu sample;
     Metric.memory := Metric.memory sample;
     Metric.disk := Metric.disk sample;
     Metric.temperature := Metric.temperature sample;
     Metric.network := Metric.network sample;
     Metric.errors := Metric.errors sample;
     Metric.users := Metric.users sample;
     Metric.responseTime := Metric.responseTime sample |}.

(** The number of calls of [Math.random()] one call of [generateMockData]
    makes. *)
Definition drawsUsed (random : nat -> Q) (now : Date) (timeRange : string) : nat :=
  snd (generateMockData_rand random now timeRange O).

(** A sequence of events, applied first to last. *)
Definition run (events : list Action) (s : Dashboard) : Dashboard :=
  fold_left (fun s a => step a s) events s.

Definition isTimer (a : Action) : bool :=
  match a with
  | AlertTimer _ _ _ _ _ _ => true
  | _ => false
  end.

(** The number of timer callbacks among the events. *)
Definition timerTicks (events : list Action) : nat :=
  List.length (filter isTimer events).

(** The event is a timer callback that generates an alert: its first draw
    is below 0.3. *)
Definition firesAlert (a : Action) : bool :=
  match a with
  | AlertTimer _ _ r0 _ _ _ =>
      match (r0 ?= threeTenths)%Q with Lt => true | _ => false end
  | _ => false
  end.

(** What an event may do to an alert that is already in the collection:
    set a flag.  Everything else about the alert stays. *)
Definition sameAlertFlagsUp (x x' : Alert.Alert) : Prop :=
  Alert.id x' = Alert.id x /\
  Alert.timestamp x' = Alert.timestamp x /\
  Alert.severity x' = Alert.severity x /\
  Alert.source x' = Alert.source x /\
  Alert.description x' = Alert.description x /\
  (Alert.acknowledged x = true -> Alert.acknowledged x' = true) /\
  (Alert.dismissed x = true -> Alert.dismissed x' = true).


(** * Properties *)

(** ** Threshold evaluator *)

(** A value below a threshold does not reach it. *)
Lemma lt_not_ge (a b : JS.number) : JS.lt a b = true -> JS.ge a b = false.
Proof.
  destruct a as [| |p|], b as [| |q|]; simpl; try reflexivity; try discriminate.
  destruct (p ?= q)%Q; [discriminate | reflexivity | discriminate].
Qed.

(** On integers the comparisons are those of the integers. *)
Lemma ge_int (x y : Z) : JS.ge (JS.int x) (JS.int y) = (y <=? x).
Proof.
  unfold JS.int; simpl. unfold Qcompare; simpl. rewrite !Z.mul_1_r.
  rewrite Z.leb_compare, (Z.compare_antisym x y).
  destruct (x ?= y); reflexivity.
Qed.

Lemma lt_int (x y : Z) : JS.lt (JS.int x) (JS.int y) = (x <? y).
Proof.
  unfold JS.int; simpl. unfold Qcompare; simpl. rewrite !Z.mul_1_r.
  unfold Z.ltb. destruct (x ?= y); reflexivity.
Qed.

(** Under the contract of the callers, warning <= critical, a value below
    the warning threshold is below the critical one as well. *)
Lemma lt_le_trans (a b c : JS.number) :
  JS.lt a b = true -> JS.le b c = true -> JS.lt a c = true.
Proof.
  destruct a as [| |p|], b as [| |q|], c as [| |r|]; cbn [JS.lt JS.le];
    try reflexivity; try discriminate.
  destruct (p ?= q)%Q eqn:Hpq; try discriminate.
  destruct (q ?= r)%Q eqn:Hqr; try discriminate; intros _ _.
  - apply Qeq_alt in Hqr. apply (proj2 (Qlt_alt p q)) in Hpq.
    assert (H : (p < r)%Q) by (rewrite <- Hqr; exact Hpq).
    rewrite (proj1 (Qlt_alt p r) H). reflexivity.
  - apply (proj2 (Qlt_alt p q)) in Hpq. apply (proj2 (Qlt_alt q r)) in Hqr.
    assert (H : (p < r)%Q) by (eapply Qlt_trans; eassumption).
    rewrite (proj1 (Qlt_alt p r) H). reflexivity.
Qed.

Example tie_is_critical :
  getStatusColor (JS.int 90) (JS.int 90) (JS.int 90) = "rgb(239, 68, 68)"%string.
Proof. reflexivity. Qed.

Example between_is_warning :
  getStatusClass (JS.int 75) (JS.int 70) (JS.int 90) = "bg-yellow-500"%string.
Proof. reflexivity. Qed.

Example nan_is_normal :
  getStatusColor JS.NaN (JS.int 70) (JS.int 90) = "rgb(34, 197, 94)"%string.
Proof. reflexivity. Qed.

(** C1.  For every value, warning threshold and critical threshold the
    colour and the class are those of the specification's classification:
    red exactly when value >= critical, yellow exactly when that fails and
    value >= warning, green exactly when both fail.  The Critical test comes
    first, so it decides on ties and when warning exceeds critical. *)
Theorem threshold_evaluator_classifies (v w c : JS.number) :
  getStatusColor v w c = statusColor (classify_spec v w c) /\
  getStatusClass v w c = statusClass (classify_spec v w c) /\
  (getStatusColor v w c = "rgb(239, 68, 68)"%string <-> JS.ge v c = true) /\
  (getStatusColor v w c = "rgb(234, 179, 8)"%string <->
     JS.ge v c = false /\ JS.ge v w = true) /\
  (getStatusColor v w c = "rgb(34, 197, 94)"%string <->
     JS.ge v c = false /\ JS.ge v w = false) /\
  (getStatusClass v w c = "bg-red-500"%string <-> JS.ge v c = true) /\
  (getStatusClass v w c = "bg-yellow-500"%string <->
     JS.ge v c = false /\ JS.ge v w = true) /\
  (getStatusClass v w c = "bg-green-500"%string <->
     JS.ge v c = false /\ JS.ge v w = false) /\
  (classify_spec v w c = Critical <-> JS.ge v c = true) /\
  (classify_spec v w c = Warning <-> JS.ge v c = false /\ JS.ge v w = true) /\
  (classify_spec v w c = Normal <-> JS.ge v c = false /\ JS.ge v w = false).
Proof.
  unfold getStatusColor, getStatusClass, classify_spec.
  destruct (JS.ge v c), (JS.ge v w); simpl;
    repeat split; intros; try reflexivity; try discriminate;
    match goal with
    | H : _ /\ _ |- _ => destruct H; discriminate
    end.
Qed.

(** The status text of the cards is "Normal" for every value below the
    warning threshold, whatever the critical threshold. *)
Lemma statusLabel_below_warning (v w c : JS.number) :
  JS.lt v w = true -> statusLabel v w c = "Normal"%string.
Proof. intros H. unfold statusLabel. rewrite H. reflexivity. Qed.

(** C5, as stated, fails: 5 is below the warning threshold 10, and with the
    critical threshold at 3 the evaluator answers Critical, red colour and
    red class. *)
Lemma below_warning_not_always_normal :
  JS.lt (JS.int 5) (JS.int 10) = true /\
  getStatusColor (JS.int 5) (JS.int 10) (JS.int 3) = "rgb(239, 68, 68)"%string /\
  getStatusClass (JS.int 5) (JS.int 10) (JS.int 3) = "bg-red-500"%string /\
  ~ (forall v w c : JS.number,
       JS.lt v w = true -> getStatusColor v w c = "rgb(34, 197, 94)"%string).
Proof.
  repeat split. intros H.
  specialize (H (JS.int 5) (JS.int 10) (JS.int 3) eq_refl).
  discriminate H.
Qed.

(** C5, amended.  For every value below the warning threshold and below the
    critical threshold the evaluator answers Normal: green colour, green
    class. *)
Theorem below_both_thresholds_normal (v w c : JS.number) :
  JS.lt v w = true -> JS.lt v c = true ->
  getStatusColor v w c = "rgb(34, 197, 94)"%string /\
  getStatusClass v w c = "bg-green-500"%string /\
  classify_spec v w c = Normal.
Proof.
  intros Hw Hc. apply lt_not_ge in Hw, Hc.
  unfold getStatusColor, getStatusClass, classify_spec.
  rewrite Hw, Hc. repeat split.
Qed.

Lemma below_both_thresholds_normal_witness :
  JS.lt (JS.int 42) (JS.int 70) = true /\
  JS.lt (JS.int 42) (JS.int 90) = true /\
  getStatusColor (JS.int 42) (JS.int 70) (JS.int 90) = "rgb(34, 197, 94)"%string /\
  getStatusClass (JS.int 42) (JS.int 70) (JS.int 90) = "bg-green-500"%string /\
  classify_spec (JS.int 42) (JS.int 70) (JS.int 90) = Normal.
Proof.
  split; [reflexivity | split; [reflexivity |]].
  apply (below_both_thresholds_normal (JS.int 42) (JS.int 70) (JS.int 90));
    reflexivity.
Defined.

(** ** Metric series generator *)

Lemma bind_run {A B} (m : Rand A) (f : A -> Rand B) (k : nat) :
  bind m f k = f (fst (m k)) (snd (m k)).
Proof. unfold bind. destruct (m k); reflexivity. Qed.

Ltac run_rand := repeat (rewrite bind_run; cbv beta); unfold ret; cbn [fst snd].

Section GeneratorFacts.

Variable random : nat -> Q.

(** What one pass of the loop pushes: a sample stamped for its index, with
    every field inside its clamp. *)
Lemma iteration_pushes now p spikePoint i b data k :
  exists sample,
    snd (fst (iteration random now p spikePoint i b data k)) = data ++ [sample] /\
    Metric.timestamp sample = now - (Policy.points p - i - 1) * Policy.interval p /\
    (0 <= Metric.cpu sample <= 100 /\ 0 <= Metric.memory sample <= 100 /\
     0 <= Metric.disk sample <= 100 /\ 15 <= Metric.temperature sample <= 50 /\
     0 <= Metric.network sample <= 100) /\
    (0 <= Metric.errors sample /\ 0 <= Metric.users sample /\
     50 <= Metric.responseTime sample).
Proof.
  unfold iteration. run_rand.
  eexists. split; [reflexivity |].
  cbn [Metric.timestamp Metric.cpu Metric.memory Metric.disk Metric.temperature
       Metric.network Metric.errors Metric.users Metric.responseTime].
  split; [reflexivity |]. split; repeat split; lia.
Qed.

Lemma loop_Forall (P : Metric.ServerMetric -> Prop) now p spikePoint :
  (forall i b data k sample,
      snd (fst (iteration random now p spikePoint i b data k)) = data ++ [sample] ->
      P sample) ->
  forall n i b data k,
    Forall P data ->
    Forall P (fst (loop random now p spikePoint n i b data k)).
Proof.
  intros HP. induction n as [|n IH]; intros i b data k Hdata.
  - exact Hdata.
  - cbn [loop]. rewrite bind_run. apply IH.
    destruct (iteration_pushes now p spikePoint i b data k) as (smp & E & _).
    rewrite E. apply Forall_app. split; [exact Hdata |].
    constructor; [| constructor]. eapply HP. exact E.
Qed.

Lemma loop_timestamps now p spikePoint n :
  forall i b data k,
    timestamps (fst (loop random now p spikePoint n i b data k)) =
    timestamps data ++
    map (fun j => now - (Policy.points p - j - 1) * Policy.interval p) (indices i n).
Proof.
  induction n as [|n IH]; intros i b data k.
  - cbn. rewrite app_nil_r. reflexivity.
  - cbn [loop indices map]. rewrite bind_run, IH.
    destruct (iteration_pushes now p spikePoint i b data k) as (smp & E & T & _).
    rewrite E. unfold timestamps. rewrite map_app, <- app_assoc. cbn [map app].
    rewrite T. reflexivity.
Qed.

(** The call is the loop, run [points] times from index 0 on an empty
    array, with the base values drawn first. *)
Lemma generateMockData_loop now timeRange :
  exists spikePoint k,
    generateMockData random now timeRange =
    fst (loop random now (rangePolicy timeRange) spikePoint
           (Z.to_nat (Policy.points (rangePolicy timeRange))) 0
           (fst (initialBases random O)) [] k).
Proof.
  unfold generateMockData, generateMockData_rand. cbv zeta. run_rand.
  do 2 eexists. reflexivity.
Qed.

Lemma generateMockData_Forall (P : Metric.ServerMetric -> Prop) now timeRange :
  (forall spikePoint i b data k sample,
      snd (fst (iteration random now (rangePolicy timeRange) spikePoint i b data k))
        = data ++ [sample] ->
      P sample) ->
  Forall P (generateMockData random now timeRange).
Proof.
  intros HP.
  destruct (generateMockData_loop now timeRange) as (sp & k & E).
  rewrite E. apply loop_Forall; [apply HP | constructor].
Qed.

Lemma generateMockData_timestamps now timeRange :
  timestamps (generateMockData random now timeRange) =
  map (fun j => now - (Policy.points (rangePolicy timeRange) - j - 1)
                      * Policy.interval (rangePolicy timeRange))
      (indices 0 (Z.to_nat (Policy.points (rangePolicy timeRange)))).
Proof.
  destruct (generateMockData_loop now timeRange) as (sp & k & E).
  rewrite E, loop_timestamps. reflexivity.
Qed.

End GeneratorFacts.

Lemma rangePolicy_cases (timeRange : string) :
  rangePolicy timeRange = rangePolicy "1h" \/
  rangePolicy timeRange = rangePolicy "24h" \/
  rangePolicy timeRange = rangePolicy "7d" \/
  rangePolicy timeRange = rangePolicy "30d".
Proof.
  unfold rangePolicy.
  destruct (timeRange =? "1h")%string; [left; reflexivity |].
  destruct (timeRange =? "24h")%string; [right; left; reflexivity |].
  destruct (timeRange =? "7d")%string; [right; right; left; reflexivity |].
  destruct (timeRange =? "30d")%string; [right; right; right; reflexivity |].
  right; left; reflexivity.
Qed.

Lemma rangePolicy_default (timeRange : string) :
  timeRange <> "1h"%string -> timeRange <> "24h"%string ->
  timeRange <> "7d"%string -> timeRange <> "30d"%string ->
  rangePolicy timeRange = rangePolicy "24h".
Proof.
  intros H1 H2 H3 H4. unfold rangePolicy at 1.
  apply String.eqb_neq in H1, H2, H3, H4. rewrite H1, H2, H3, H4. reflexivity.
Qed.

Example week_of_median_draws :
  timestamps (generateMockData (fun _ => 1 # 2) 1000000000 "7d") =
  [481600000; 568000000; 654400000; 740800000; 827200000; 913600000; 1000000000].
Proof. vm_compute. reflexivity. Qed.

Example week_of_high_draws_cpu :
  map Metric.cpu (generateMockData (fun _ => 99 # 100) 0 "7d") =
  [65; 67; 69; 71; 73; 75; 100].
Proof. vm_compute. reflexivity. Qed.

Lemma indices_length (n : nat) : forall i, List.length (indices i n) = n.
Proof. induction n as [|n IH]; intros i; cbn; [| rewrite IH]; reflexivity. Qed.

Lemma indices_spaced (now pts iv : Z) (n : nat) :
  forall i, spacedBy iv (map (fun j => now - (pts - j - 1) * iv) (indices i n)).
Proof.
  induction n as [|n IH]; intros i; [exact I |].
  specialize (IH (i + 1)). destruct n as [|n]; [exact I |].
  cbn [indices map spacedBy] in IH |- *. split; [lia | exact IH].
Qed.

Lemma indices_last (f : Z -> Z) (d : Z) (n : nat) :
  forall i, last (map f (indices i (S n))) d = f (i + Z.of_nat n).
Proof.
  induction n as [|n IH]; intros i.
  - cbn. f_equal. lia.
  - change (indices i (S (S n))) with (i :: indices (i + 1) (S n)).
    rewrite map_cons. cbn [last].
    destruct (map f (indices (i + 1) (S n))) eqn:E; [discriminate E |].
    rewrite <- E, IH. f_equal. lia.
Qed.

(** The shape of a generated series, for whatever policy the range selects:
    [points] samples, [interval] apart, the last one stamped [now]. *)
Lemma series_shape (random : nat -> Q) (now : Date) (timeRange : string) :
  let p := rangePolicy timeRange in
  let data := generateMockData random now timeRange in
  List.length data = Z.to_nat (Policy.points p) /\
  spacedBy (Policy.interval p) (timestamps data) /\
  last (timestamps data) 0 = now.
Proof.
  intros p data.
  assert (Hts := generateMockData_timestamps random now timeRange).
  fold p data in Hts.
  split; [| split].
  - rewrite <- (length_map Metric.timestamp data). fold (timestamps data).
    rewrite Hts, length_map, indices_length. reflexivity.
  - rewrite Hts. apply indices_spaced.
  - rewrite Hts.
    assert (Hp : exists n, Z.to_nat (Policy.points p) = S n /\
                           Policy.points p = Z.of_nat (S n)).
    { subst p. destruct (rangePolicy_cases timeRange) as [E | [E | [E | E]]];
        rewrite E; cbn; eexists; split; reflexivity. }
    destruct Hp as (n & En & Ep). rewrite En, indices_last, Ep. lia.
Qed.

(** C3.  A "24h" series has exactly 24 samples one hour apart, a "1h"
    series 60 samples one minute apart, a "7d" series 7 samples one day
    apart, a "30d" series 30 samples one day apart; the last sample is
    stamped with the time of the call; a range key that is none of the four
    gets the 24 samples, one hour apart, of "24h". *)
Theorem generateMockData_ranges (random : nat -> Q) (now : Date) :
  (let data := generateMockData random now "24h" in
   List.length data = 24%nat /\
   spacedBy 3600000 (timestamps data) /\ last (timestamps data) 0 = now) /\
  (let data := generateMockData random now "1h" in
   List.length data = 60%nat /\
   spacedBy 60000 (timestamps data) /\ last (timestamps data) 0 = now) /\
  (let data := generateMockData random now "7d" in
   List.length data = 7%nat /\
   spacedBy 86400000 (timestamps data) /\ last (timestamps data) 0 = now) /\
  (let data := generateMockData random now "30d" in
   List.length data = 30%nat /\
   spacedBy 86400000 (timestamps data) /\ last (timestamps data) 0 = now) /\
  (forall timeRange : string,
     timeRange <> "1h"%string -> timeRange <> "24h"%string ->
     timeRange <> "7d"%string -> timeRange <> "30d"%string ->
     let data := generateMockData random now timeRange in
     List.length data = 24%nat /\
     spacedBy 3600000 (timestamps data) /\ last (timestamps data) 0 = now).
Proof.
  assert (shape : forall timeRange n iv,
             rangePolicy timeRange = {| Policy.points := Z.of_nat n; Policy.interval := iv |} ->
             let data := generateMockData random now timeRange in
             List.length data = n /\
             spacedBy iv (timestamps data) /\ last (timestamps data) 0 = now).
  { intros timeRange n iv E.
    destruct (series_shape random now timeRange) as (L & S & T).
    rewrite E in L, S. cbn [Policy.points Policy.interval] in L, S.
    rewrite Nat2Z.id in L. cbv zeta. auto. }
  split; [apply (shape "24h"%string 24%nat); reflexivity |].
  split; [apply (shape "1h"%string 60%nat); reflexivity |].
  split; [apply (shape "7d"%string 7%nat); reflexivity |].
  split; [apply (shape "30d"%string 30%nat); reflexivity |].
  intros timeRange H1 H2 H3 H4.
  apply (shape timeRange 24%nat).
  rewrite (rangePolicy_default timeRange H1 H2 H3 H4). reflexivity.
Qed.

Lemma generateMockData_ranges_witness :
  let data := generateMockData (fun _ => 1 # 2) 1000000000 "12h" in
  List.length data = 24%nat /\
  spacedBy 3600000 (timestamps data) /\
  last (timestamps data) 0 = 1000000000.
Proof.
  apply (proj2 (proj2 (proj2 (proj2
           (generateMockData_ranges (fun _ => 1 # 2) 1000000000)))));
    discriminate.
Defined.

(** C4.  Whatever the range key and the random draws, every sample of the
    series has cpu, memory, disk and network within 0 and 100 and
    temperature within 15 and 50. *)
Theorem generateMockData_bounded (random : nat -> Q) (now : Date) (timeRange : string) :
  Forall (fun sample =>
            0 <= Metric.cpu sample <= 100 /\
            0 <= Metric.memory sample <= 100 /\
            0 <= Metric.disk sample <= 100 /\
            0 <= Metric.network sample <= 100 /\
            15 <= Metric.temperature sample <= 50)
         (generateMockData random now timeRange).
Proof.
  apply generateMockData_Forall. intros sp i b data k sample E.
  destruct (iteration_pushes random now (rangePolicy timeRange) sp i b data k)
    as (smp & E' & _ & B & _).
  rewrite E' in E. apply app_inj_tail in E. destruct E as [_ <-]. lia.
Qed.

(** *** The drift of the error count *)

Section RandomRange.

Variable random : nat -> Q.
Hypothesis random_unit : unitInterval random.

(** [getRandomValue(min, max)] is an integer from [min] to [max]. *)
Lemma getRandomValue_range (min max : Z) (k : nat) :
  min <= max -> min <= fst (getRandomValue random min max k) <= max.
Proof.
  intros Hmm. unfold getRandomValue. run_rand. unfold Math_random. cbn [fst].
  destruct (random_unit k) as [H0 H1].
  set (n := max - min + 1).
  assert (Hn : (inject_Z 0 < inject_Z n)%Q) by (rewrite <- Zlt_Qlt; lia).
  assert (Hlo : 0 <= Qfloor (random k * inject_Z n)).
  { change 0 with (Qfloor 0). apply Qfloor_resp_le.
    apply Qmult_le_0_compat; [exact H0 | apply Qlt_le_weak, Hn]. }
  assert (Hhi : Qfloor (random k * inject_Z n) < n).
  { rewrite Zlt_Qlt. eapply Qle_lt_trans; [apply Qfloor_le |].
    rewrite <- (Qmult_1_l (inject_Z n)) at 2.
    apply Qmult_lt_compat_r; assumption. }
  lia.
Qed.

(** One pass of the loop raises the base error count by at most 1 and
    pushes a sample whose error count is at most 3 above the base. *)
Lemma iteration_errors now p spikePoint i b data k :
  baseErrors (fst (fst (iteration random now p spikePoint i b data k)))
    <= baseErrors b + 1 /\
  exists sample,
    snd (fst (iteration random now p spikePoint i b data k)) = data ++ [sample] /\
    Metric.errors sample <= Z.max 0 (baseErrors b + 3).
Proof.
  unfold iteration. run_rand. cbn [baseErrors]. split.
  - match goal with
    | |- _ + fst (getRandomValue random (-1) 1 ?k) <= _ =>
        pose proof (getRandomValue_range (-1) 1 k ltac:(lia))
    end. lia.
  - eexists. split; [reflexivity |]. cbn [Metric.errors].
    match goal with
    | |- context [fst (getRandomValue random (-2) 3 ?k)] =>
        pose proof (getRandomValue_range (-2) 3 k ltac:(lia))
    end. lia.
Qed.

Lemma loop_errors now p spikePoint (bound : Z) (n : nat) :
  forall i b data k,
    0 <= bound -> baseErrors b + Z.of_nat n + 2 <= bound ->
    Forall (fun sample => Metric.errors sample <= bound) data ->
    Forall (fun sample => Metric.errors sample <= bound)
           (fst (loop random now p spikePoint n i b data k)).
Proof.
  induction n as [|n IH]; intros i b data k H0 Hb Hdata.
  - exact Hdata.
  - cbn [loop]. rewrite bind_run.
    destruct (iteration_errors now p spikePoint i b data k) as (Hbase & smp & E & He).
    apply IH; [exact H0 | lia |].
    rewrite E. apply Forall_app. split; [exact Hdata |].
    constructor; [lia | constructor].
Qed.

Lemma initialBases_errors (k : nat) :
  0 <= baseErrors (fst (initialBases random k)) <= 10.
Proof.
  unfold initialBases. run_rand. cbn [baseErrors].
  apply getRandomValue_range. lia.
Qed.

(** The error count of a sample is at most 72: the base starts at 10 at
    most, gains at most 1 per sample over at most 60 samples, and the
    sample adds at most 3. *)
Lemma errors_at_most_72 now timeRange :
  Forall (fun sample => Metric.errors sample <= 72)
         (generateMockData random now timeRange).
Proof.
  destruct (generateMockData_loop random now timeRange) as (sp & k & E).
  rewrite E. apply loop_errors; [lia | | constructor].
  pose proof (initialBases_errors O) as Hb.
  assert (Hp : 0 <= Policy.points (rangePolicy timeRange) <= 60)
    by (destruct (rangePolicy_cases timeRange) as [P | [P | [P | P]]];
        rewrite P; cbn; lia).
  rewrite Z2Nat.id by lia. lia.
Qed.

End RandomRange.

(** A random source that always returns 0.99: a [getRandomValue] over at
    most 100 values then returns its upper bound. *)
Lemma high_draws_unit : unitInterval (fun _ => 99 # 100).
Proof. intros k. split; [discriminate | reflexivity]. Qed.

(** C10, as stated, fails where it says that the error count exceeds any
    fixed threshold: no draws of [Math.random()] take it past 72. *)
Lemma errors_never_exceed_72 :
  ~ (forall threshold : Z,
       exists (random : nat -> Q) (now : Date) (timeRange : string),
         unitInterval random /\
         Exists (fun sample => threshold < Metric.errors sample)
                (generateMockData random now timeRange)).
Proof.
  intros H. destruct (H 72) as (random & now & timeRange & U & Hex).
  apply Exists_exists in Hex. destruct Hex as (sample & Hin & Hgt).
  pose proof (errors_at_most_72 random U now timeRange) as Hall.
  rewrite Forall_forall in Hall. specialize (Hall sample Hin). lia.
Qed.

(** C10, amended.  Whatever the range key and the random draws, every
    sample of the series has errors and users at least 0 and response time
    at least 50.  The three are clamped from below only: with draws that
    [Math.random()] can return, a series has a sample whose errors exceed
    the default critical value 15 and whose users and response time exceed
    100, the cap of the percentage fields.  The bounded drift still keeps
    the errors at 72 or below, a value that some draws reach. *)
Theorem generateMockData_lower_clamps :
  (forall (random : nat -> Q) (now : Date) (timeRange : string),
     Forall (fun sample =>
               0 <= Metric.errors sample /\
               0 <= Metric.users sample /\
               50 <= Metric.responseTime sample)
            (generateMockData random now timeRange)) /\
  (exists (random : nat -> Q) (now : Date) (timeRange : string),
     unitInterval random /\
     Exists (fun sample =>
               15 < Metric.errors sample /\
               100 < Metric.users sample /\
               100 < Metric.responseTime sample)
            (generateMockData random now timeRange)) /\
  (forall (random : nat -> Q) (now : Date) (timeRange : string),
     unitInterval random ->
     Forall (fun sample => Metric.errors sample <= 72)
            (generateMockData random now timeRange)) /\
  (exists (random : nat -> Q) (now : Date) (timeRange : string),
     unitInterval random /\
     Exists (fun sample => Metric.errors sample = 72)
            (generateMockData random now timeRange)).
Proof.
  split; [| split; [| split]].
  - intros random now timeRange.
    apply generateMockData_Forall. intros sp i b data k sample E.
    destruct (iteration_pushes random now (rangePolicy timeRange) sp i b data k)
      as (smp & E' & _ & _ & B).
    rewrite E' in E. apply app_inj_tail in E. destruct E as [_ <-]. lia.
  - exists (fun _ => 99 # 100), 0, "24h"%string.
    split; [exact high_draws_unit |].
    apply Exists_exists.
    exists (nth 3 (generateMockData (fun _ => 99 # 100) 0 "24h")
              (Metric.Build_ServerMetric 0 0 0 0 0 0 0 0 0)).
    split; [| vm_compute; repeat split].
    apply nth_In. vm_compute. lia.
  - intros random now timeRange U. exact (errors_at_most_72 random U now timeRange).
  - exists (fun _ => 99 # 100), 0, "1h"%string.
    split; [exact high_draws_unit |].
    apply Exists_exists.
    exists (nth 59 (generateMockData (fun _ => 99 # 100) 0 "1h")
              (Metric.Build_ServerMetric 0 0 0 0 0 0 0 0 0)).
    split; [| vm_compute; reflexivity].
    apply nth_In. vm_compute. lia.
Qed.

Lemma generateMockData_lower_clamps_witness :
  unitInterval (fun _ => 99 # 100) /\
  Forall (fun sample => Metric.errors sample <= 72)
         (generateMockData (fun _ => 99 # 100) 0 "7d").
Proof.
  split; [exact high_draws_unit |].
  exact (proj1 (proj2 (proj2 generateMockData_lower_clamps))
           (fun _ => 99 # 100) 0 "7d"%string high_draws_unit).
Defined.

(** ** Panel coordinator *)

Ltac split_ifs :=
  repeat match goal with
         | |- context [if ?b then _ else _] => destruct b
         end.

Lemma step_keeps_exclusion (a : Action) (s : Dashboard) :
  (panelsShown s <= 1)%nat -> (panelsShown (step a s) <= 1)%nat.
Proof.
  destruct s as [dm tr sb al sn st ew ai p1 p2 p3 p4 lp th].
  unfold panelsShown. cbn [showServersPanel showAlertsPanel showUsersPanel showReportsPanel].
  intros H.
  destruct a; cbn [step]; try exact H;
    try (destruct p1, p2, p3, p4; cbn in H |- *; lia).
  - unfold handleItemClick. split_ifs;
      destruct p1, p2, p3, p4; cbn in H |- *; lia.
  - unfold alertTimer. split_ifs; exact H.
Qed.

Lemma reachable_exclusive (now : Date) (s : Dashboard) :
  reachable now s -> (panelsShown s <= 1)%nat.
Proof.
  induction 1 as [| a s _ IH].
  - cbn. lia.
  - apply step_keeps_exclusion, IH.
Qed.

(** C2.  In every state the page can reach at most one of the servers,
    alerts, users and reports panels is shown.  Toggling a panel that is
    hidden shows it and hides the other three; toggling the panel that is
    shown leaves all four hidden.  The panel toggles leave the sidebar, the
    notifications, the settings and the expanded widget as they were, and
    the toggles of those four leave the panels, and each other, as they
    were. *)
Theorem right_panels_exclusive (now : Date) (s : Dashboard) :
  reachable now s ->
  (panelsShown s <= 1)%nat /\
  (forall p, shown p s = false ->
     forall q, shown q (togglePanel p s) = Panel_eqb q p) /\
  (forall p, shown p s = true ->
     forall q, shown q (togglePanel p s) = false) /\
  (forall p,
     showSidebar (togglePanel p s) = showSidebar s /\
     showNotifications (togglePanel p s) = showNotifications s /\
     showSettings (togglePanel p s) = showSettings s /\
     expandedWidget (togglePanel p s) = expandedWidget s) /\
  (forall q w,
     shown q (toggleSidebar s) = shown q s /\
     shown q (toggleNotifications s) = shown q s /\
     shown q (toggleSettings s) = shown q s /\
     shown q (setExpandedWidget w s) = shown q s) /\
  (forall w,
     (showNotifications (toggleSidebar s) = showNotifications s /\
      showSettings (toggleSidebar s) = showSettings s /\
      expandedWidget (toggleSidebar s) = expandedWidget s) /\
     (showSidebar (toggleNotifications s) = showSidebar s /\
      showSettings (toggleNotifications s) = showSettings s /\
      expandedWidget (toggleNotifications s) = expandedWidget s) /\
     (showSidebar (toggleSettings s) = showSidebar s /\
      showNotifications (toggleSettings s) = showNotifications s /\
      expandedWidget (toggleSettings s) = expandedWidget s) /\
     (showSidebar (setExpandedWidget w s) = showSidebar s /\
      showNotifications (setExpandedWidget w s) = showNotifications s /\
      showSettings (setExpandedWidget w s) = showSettings s)).
Proof.
  intros R. pose proof (reachable_exclusive now s R) as Hx.
  split; [exact Hx |].
  destruct s as [dm tr sb al sn st ew ai p1 p2 p3 p4 lp th].
  unfold panelsShown in Hx. cbn in Hx.
  split; [| split; [| split; [| split]]].
  - intros p Hp q. destruct p, q; cbn in Hp |- *; subst; reflexivity.
  - intros p Hp q.
    destruct p1, p2, p3, p4; cbn in Hx; try lia;
      destruct p; cbn in Hp; try discriminate Hp;
      destruct q; reflexivity.
  - intros p. destruct p, p1, p2, p3, p4; cbn; auto.
  - intros q w. destruct q; cbn; auto.
  - intros w. cbn. auto 10.
Qed.

(** The walk of the specification: servers shown, alerts toggled on, alerts
    toggled off again. *)
Lemma right_panels_exclusive_witness :
  let s := toggleServersPanel (initialDashboard 0) in
  reachable 0 s /\
  showServersPanel (toggleAlertsPanel s) = false /\
  showAlertsPanel (toggleAlertsPanel s) = true /\
  (panelsShown (toggleAlertsPanel s) <= 1)%nat /\
  showServersPanel (toggleAlertsPanel (toggleAlertsPanel s)) = false /\
  showAlertsPanel (toggleAlertsPanel (toggleAlertsPanel s)) = false.
Proof.
  intros s.
  assert (R : reachable 0 s)
    by exact (reachable_step 0 ToggleServersPanel _ (reachable_init 0)).
  assert (R' : reachable 0 (toggleAlertsPanel s))
    by exact (reachable_step 0 ToggleAlertsPanel _ R).
  destruct (right_panels_exclusive 0 s R) as (_ & Hon & _).
  destruct (right_panels_exclusive 0 (toggleAlertsPanel s) R') as (Hx & _ & Hoff & _).
  split; [exact R |].
  split; [exact (Hon AlertsPanel eq_refl ServersPanel) |].
  split; [exact (Hon AlertsPanel eq_refl AlertsPanel) |].
  split; [exact Hx |].
  split; [exact (Hoff AlertsPanel eq_refl ServersPanel) |].
  exact (Hoff AlertsPanel eq_refl AlertsPanel).
Defined.

(** ** Alert store *)

Lemma setAlerts_same (s : Dashboard) : setAlerts (alerts s) s = s.
Proof. destruct s; reflexivity. Qed.

Lemma dismissIn_ids (id : string) (l : list Alert.Alert) :
  alertIds (dismissIn id l) = alertIds l.
Proof.
  unfold alertIds, dismissIn. rewrite map_map. apply map_ext.
  intros a. destruct (Alert.id a =? id)%string; reflexivity.
Qed.

Lemma acknowledgeIn_ids (id : string) (l : list Alert.Alert) :
  alertIds (acknowledgeIn id l) = alertIds l.
Proof.
  unfold alertIds, acknowledgeIn. rewrite map_map. apply map_ext.
  intros a. destruct (Alert.id a =? id)%string; reflexivity.
Qed.

Lemma dismissIn_absent (id : string) (l : list Alert.Alert) :
  ~ In id (alertIds l) -> dismissIn id l = l.
Proof.
  induction l as [|a l IH]; intros H; [reflexivity |].
  cbn in H |- *. destruct (String.eqb_spec (Alert.id a) id) as [E | _].
  - exfalso. apply H. left. exact E.
  - f_equal. apply IH. intros Hin. apply H. right. exact Hin.
Qed.

Lemma acknowledgeIn_absent (id : string) (l : list Alert.Alert) :
  ~ In id (alertIds l) -> acknowledgeIn id l = l.
Proof.
  induction l as [|a l IH]; intros H; [reflexivity |].
  cbn in H |- *. destruct (String.eqb_spec (Alert.id a) id) as [E | _].
  - exfalso. apply H. left. exact E.
  - f_equal. apply IH. intros Hin. apply H. right. exact Hin.
Qed.

(** After a dismissal every alert of the collection that carries the
    identifier is dismissed. *)
Lemma dismissIn_dismissed (id : string) (l : list Alert.Alert) (a : Alert.Alert) :
  In a (dismissIn id l) -> Alert.id a = id -> Alert.dismissed a = true.
Proof.
  unfold dismissIn. intros Hin Hid. apply in_map_iff in Hin.
  destruct Hin as (a0 & E & _).
  destruct (String.eqb_spec (Alert.id a0) id) as [_ | N]; subst a.
  - reflexivity.
  - contradiction.
Qed.

Lemma notificationCountOf_countUnread (l : list Alert.Alert) :
  notificationCountOf l = countUnread l.
Proof.
  unfold notificationCountOf. induction l as [|a l IH]; [reflexivity |].
  cbn [filter countUnread].
  destruct (Alert.acknowledged a), (Alert.dismissed a); cbn; rewrite IH; reflexivity.
Qed.


(** C6.  Dismissing an alert of the collection takes it out of the active
    view and deletes nothing: the collection keeps its identifiers, in
    order, the alert is still there, now with its dismissed flag set and
    otherwise as it was, and the alerts of other identifiers are as they
    were. *)
Theorem dismiss_hides_and_keeps (id : string) (s : Dashboard) :
  In id (alertIds (alerts s)) ->
  (forall a, In a (activeAlerts (dismissAlert id s)) -> Alert.id a <> id) /\
  (exists a, In a (alerts (dismissAlert id s)) /\
             Alert.id a = id /\ Alert.dismissed a = true) /\
  (forall a, In a (alerts (dismissAlert id s)) -> Alert.id a = id ->
             Alert.dismissed a = true) /\
  (forall a, In a (alerts s) -> Alert.id a = id ->
             In (Alert.with_dismissed true a) (alerts (dismissAlert id s))) /\
  (forall a, In a (alerts s) -> Alert.id a <> id ->
             In a (alerts (dismissAlert id s))) /\
  alertIds (alerts (dismissAlert id s)) = alertIds (alerts s) /\
  List.length (alerts (dismissAlert id s)) = List.length (alerts s).
Proof.
  intros Hin.
  assert (Ha : alerts (dismissAlert id s) = dismissIn id (alerts s))
    by (destruct s; reflexivity).
  unfold activeAlerts, activeAlertsOf. rewrite Ha.
  assert (Hkeep : forall a, In a (alerts s) -> Alert.id a = id ->
                            In (Alert.with_dismissed true a) (dismissIn id (alerts s))).
  { intros a Ia E. unfold dismissIn. apply in_map_iff. exists a.
    split; [| exact Ia]. apply String.eqb_eq in E. rewrite E. reflexivity. }
  repeat split.
  - intros a Hact E. apply filter_In in Hact. destruct Hact as [Ia Hd].
    rewrite (dismissIn_dismissed id _ a Ia E) in Hd. discriminate Hd.
  - unfold alertIds in Hin. apply in_map_iff in Hin. destruct Hin as (a & E & Ia).
    exists (Alert.with_dismissed true a). split; [apply Hkeep; assumption |].
    split; [exact E | reflexivity].
  - apply dismissIn_dismissed.
  - exact Hkeep.
  - intros a Ia N. unfold dismissIn. apply in_map_iff. exists a.
    split; [| exact Ia]. apply String.eqb_neq in N. rewrite N. reflexivity.
  - apply dismissIn_ids.
  - unfold dismissIn. apply length_map.
Qed.

Lemma dismiss_hides_and_keeps_witness :
  In "alert-003"%string (alertIds (alerts (initialDashboard 0))) /\
  (exists a, In a (alerts (dismissAlert "alert-003" (initialDashboard 0))) /\
             Alert.id a = "alert-003"%string /\ Alert.dismissed a = true).
Proof.
  assert (H : In "alert-003"%string (alertIds (alerts (initialDashboard 0))))
    by (simpl; auto).
  split; [exact H |].
  exact (proj1 (proj2 (dismiss_hides_and_keeps "alert-003" (initialDashboard 0) H))).
Defined.

Lemma step_alerts (a : Action) (s : Dashboard) :
  alerts (step a s) = alerts s \/
  (exists id, a = DismissAlert id /\ alerts (step a s) = dismissIn id (alerts s)) \/
  (exists id, a = AcknowledgeAlert id /\
              alerts (step a s) = acknowledgeIn id (alerts s)) \/
  (exists dateNow newDate r0 r1 r2 r3 alert,
     a = AlertTimer dateNow newDate r0 r1 r2 r3 /\
     Alert.id alert = timerAlertId dateNow /\
     alerts (step a s) = alert :: alerts s).
Proof.
  destruct s as [dm tr sb al sn st ew ai p1 p2 p3 p4 lp th].
  destruct a; cbn [step];
    try (left; reflexivity);
    try (left; destruct p1, p2, p3, p4; reflexivity).
  - right; left. eexists; split; reflexivity.
  - right; right; left. eexists; split; reflexivity.
  - left. unfold handleItemClick. split_ifs;
      destruct p1, p2, p3, p4; reflexivity.
  - unfold alertTimer. split_ifs; [| left; reflexivity].
    right; right; right. do 7 eexists. split; [reflexivity |].
    split; [| reflexivity]. reflexivity.
Qed.

(** The identifiers of the collection stay distinct as long as the timer
    stamps each new alert with a time it has not used before, which a
    30 second interval and a millisecond clock see to. *)
Lemma step_keeps_ids_distinct (a : Action) (s : Dashboard) :
  NoDup (alertIds (alerts s)) ->
  (forall dateNow newDate r0 r1 r2 r3,
     a = AlertTimer dateNow newDate r0 r1 r2 r3 ->
     ~ In (timerAlertId dateNow) (alertIds (alerts s))) ->
  NoDup (alertIds (alerts (step a s))).
Proof.
  intros ND Hfresh.
  destruct (step_alerts a s)
    as [E | [(id & _ & E) | [(id & _ & E) | (dn & nd & r0 & r1 & r2 & r3 & al & Ea & Eid & E)]]];
    rewrite E.
  - exact ND.
  - rewrite dismissIn_ids. exact ND.
  - rewrite acknowledgeIn_ids. exact ND.
  - cbn [alertIds map]. rewrite Eid. constructor; [| exact ND].
    exact (Hfresh dn nd r0 r1 r2 r3 Ea).
Qed.

(** *** Identifiers stay distinct *)

Lemma initial_ids_distinct (now : Date) :
  NoDup (alertIds (alerts (initialDashboard now))).
Proof.
  cbn. repeat constructor; cbn; intuition discriminate.
Qed.

Lemma timerAlertId_inj (t1 t2 : Date) :
  timerAlertId t1 = timerAlertId t2 -> t1 = t2.
Proof.
  unfold timerAlertId. cbn [append]. intros H. injection H as H.
  assert (P : forall z, NilZero.int_of_string (NilZero.string_of_int (Z.to_int z))
                        = Some (Z.to_int z)).
  { intros z. apply NilZero.isi; destruct z; cbn; try discriminate;
      intros E; injection E as E; revert E; apply Unsigned.to_uint_nonnil. }
  apply DecimalZ.to_int_inj.
  assert (E : Some (Z.to_int t1) = Some (Z.to_int t2))
    by (rewrite <- !P, H; reflexivity).
  injection E as E. exact E.
Qed.

(** No time prints as "001" to "005": the identifiers of the first five
    alerts are not identifiers of the timer. *)
Lemma timerAlertId_not_initial (now t : Date) :
  ~ In (timerAlertId t) (alertIds (generateMockAlerts now)).
Proof.
  assert (Q : forall str d,
             NilZero.int_of_string str = Some d -> Z.to_int (Z.of_int d) <> d ->
             timerAlertId t <> ("alert-" ++ str)%string).
  { intros str d Hd Hn E. unfold timerAlertId in E. cbn [append] in E.
    injection E as E. apply Hn.
    assert (Hs : NilZero.int_of_string (NilZero.string_of_int (Z.to_int t))
                 = Some (Z.to_int t)).
    { apply NilZero.isi; destruct t; cbn; try discriminate;
        intros E'; injection E' as E'; revert E'; apply Unsigned.to_uint_nonnil. }
    rewrite E, Hd in Hs. injection Hs as Hs. subst d.
    rewrite DecimalZ.of_to. reflexivity. }
  cbn. intros [H | [H | [H | [H | [H | []]]]]]; symmetry in H; revert H.
  - apply (Q "001"%string _ eq_refl). discriminate.
  - apply (Q "002"%string _ eq_refl). discriminate.
  - apply (Q "003"%string _ eq_refl). discriminate.
  - apply (Q "004"%string _ eq_refl). discriminate.
  - apply (Q "005"%string _ eq_refl). discriminate.
Qed.

Lemma clocked_reachable (now clock : Date) (s : Dashboard) :
  reachableClocked now clock s -> reachable now s.
Proof. induction 1; constructor; assumption. Qed.

(** With the clock advancing between the callbacks of the timer, every
    identifier of the collection is one of the first five or the stamp of
    an earlier callback, and no two alerts share one. *)
Lemma clocked_ids_distinct (now clock : Date) (s : Dashboard) :
  reachableClocked now clock s ->
  NoDup (alertIds (alerts s)) /\
  (forall id, In id (alertIds (alerts s)) ->
     In id (alertIds (generateMockAlerts now)) \/
     exists t, t < clock /\ id = timerAlertId t).
Proof.
  induction 1 as [clock | a s clock _ [ND Hids] Hev
                  | dateNow newDate r0 r1 r2 r3 s clock _ [ND Hids] Hclock].
  - split; [apply initial_ids_distinct | intros id Hin; left; exact Hin].
  - destruct (step_alerts a s)
      as [E | [(id & _ & E) | [(id & _ & E) | (dn & nd & q0 & q1 & q2 & q3 & al & Ea & _)]]];
      try rewrite E; try rewrite dismissIn_ids; try rewrite acknowledgeIn_ids;
      try (split; assumption).
    exfalso. exact (Hev _ _ _ _ _ _ Ea).
  - assert (Hold : forall id, In id (alertIds (alerts s)) ->
                     In id (alertIds (generateMockAlerts now)) \/
                     exists t, t < dateNow + 1 /\ id = timerAlertId t).
    { intros id Hin. destruct (Hids id Hin) as [Hi | (t & Ht & E)];
        [left; exact Hi | right; exists t; split; [lia | exact E]]. }
    destruct (step_alerts (AlertTimer dateNow newDate r0 r1 r2 r3) s)
      as [E | [(id & Ea & _) | [(id & Ea & _) | (dn & nd & q0 & q1 & q2 & q3 & al & Ea & Eid & E)]]];
      try discriminate Ea; rewrite E.
    + split; assumption.
    + injection Ea as <- _ _ _ _ _. cbn [alertIds map]. rewrite Eid. split.
      * constructor; [| exact ND]. intros Hin.
        destruct (Hids _ Hin) as [Hi | (t & Ht & Et)].
        -- exact (timerAlertId_not_initial now dateNow Hi).
        -- apply timerAlertId_inj in Et. lia.
      * intros id [<- | Hin]; [| apply Hold; exact Hin].
        right. exists dateNow. split; [lia | reflexivity].
Qed.





(** C9.  Acknowledging or dismissing an identifier that no alert of the
    collection carries returns the state it was given: the alerts, their
    fields, their number and their order are the same, and so is every
    other cell.  Both operations are total functions; there is no error
    result. *)
Theorem unknown_id_is_noop (id : string) (s : Dashboard) :
  ~ In id (alertIds (alerts s)) ->
  acknowledgeAlert id s = s /\ dismissAlert id s = s.
Proof.
  intros H. unfold acknowledgeAlert, dismissAlert.
  rewrite (acknowledgeIn_absent id _ H), (dismissIn_absent id _ H).
  split; apply setAlerts_same.
Qed.

Lemma unknown_id_is_noop_witness :
  ~ In "alert-999"%string (alertIds (alerts (initialDashboard 0))) /\
  acknowledgeAlert "alert-999" (initialDashboard 0) = initialDashboard 0 /\
  dismissAlert "alert-999" (initialDashboard 0) = initialDashboard 0.
Proof.
  assert (H : ~ In "alert-999"%string (alertIds (alerts (initialDashboard 0))))
    by (simpl; intuition discriminate).
  split; [exact H |].
  exact (unknown_id_is_noop "alert-999" (initialDashboard 0) H).
Defined.

(** ** Thresholds *)

(** C8.  [updateThreshold key level value] stores [value] at that level of
    that metric and changes nothing else: every other level of every metric
    reads as before, and so does every other cell of the state.  For
    ("cpu", "warning", 80) the thresholds are the old ones with 80 as the
    warning level of cpu. *)
Theorem updateThreshold_frame
    (key : Thresholds.Key) (level : Threshold.Level) (value : JS.number)
    (s : Dashboard) :
  (forall k l,
     Threshold.get l (Thresholds.get k (thresholds (updateThreshold key level value s))) =
     if Thresholds.Key_eqb k key && Threshold.Level_eqb l level then value
     else Threshold.get l (Thresholds.get k (thresholds s))) /\
  thresholds (updateThreshold Thresholds.Cpu Threshold.Warning (JS.int 80) s) =
    {| Thresholds.cpu :=
         {| Threshold.warning := JS.int 80;
            Threshold.critical := Threshold.critical (Thresholds.cpu (thresholds s)) |};
       Thresholds.memory := Thresholds.memory (thresholds s);
       Thresholds.disk := Thresholds.disk (thresholds s);
       Thresholds.temperature := Thresholds.temperature (thresholds s);
       Thresholds.network := Thresholds.network (thresholds s);
       Thresholds.errors := Thresholds.errors (thresholds s) |} /\
  (let s' := updateThreshold key level value s in
   darkMode s' = darkMode s /\
   timeRange s' = timeRange s /\
   showSidebar s' = showSidebar s /\
   alerts s' = alerts s /\
   showNotifications s' = showNotifications s /\
   showSettings s' = showSettings s /\
   expandedWidget s' = expandedWidget s /\
   activeSidebarItem s' = activeSidebarItem s /\
   showServersPanel s' = showServersPanel s /\
   showAlertsPanel s' = showAlertsPanel s /\
   showUsersPanel s' = showUsersPanel s /\
   showReportsPanel s' = showReportsPanel s /\
   isLandingPage s' = isLandingPage s).
Proof.
  split; [| split].
  - intros k l. destruct key, level, k, l; reflexivity.
  - reflexivity.
  - cbn. repeat split.
Qed.

(** * Further properties of the code *)

(** ** Random values *)

Lemma getRandomValue_next (random : nat -> Q) (min max : Z) (k : nat) :
  snd (getRandomValue random min max k) = S k.
Proof. reflexivity. Qed.



(** ** The series generator, draw by draw *)

Section GeneratorDraws.

Variable random : nat -> Q.
Hypothesis random_unit : unitInterval random.

(** One pass of the loop, with the seventeen values it draws named and
    ranged: the fluctuation, the two spikes (0 off the spike index), the
    six offsets of the sample and the eight drifts of the base values. *)
Lemma iteration_shape now p spikePoint i b data k :
  exists fl cs ms rD rT rN rE rU rR dC dM dD dT dN dE dU dR,
    ((-5 <= fl <= 5 /\ 0 <= cs <= 40 /\ 0 <= ms <= 30) /\
     (-2 <= rD <= 2 /\ -3 <= rT <= 3 /\ -10 <= rN <= 10) /\
     (-2 <= rE <= 3 /\ -20 <= rU <= 20 /\ -50 <= rR <= 50) /\
     (-2 <= dC <= 2 /\ -1 <= dM <= 2 /\ 0 <= dD <= 1 /\ -1 <= dT <= 1) /\
     (-5 <= dN <= 5 /\ -1 <= dE <= 1 /\ -10 <= dU <= 10 /\ -20 <= dR <= 20)) /\
    fst (iteration random now p spikePoint i b data k) =
    ({| baseCpu := baseCpu b + dC;
        baseMemory := baseMemory b + dM;
        baseDisk := baseDisk b + dD;
        baseTemp := baseTemp b + dT;
        baseNetwork := baseNetwork b + dN;
        baseErrors := baseErrors b + dE;
        baseUsers := baseUsers b + dU;
        baseResponseTime := baseResponseTime b + dR |},
     data ++
     [ {| Metric.timestamp := now - (Policy.points p - i - 1) * Policy.interval p;
          Metric.cpu := Z.min 100 (Z.max 0 (baseCpu b + fl + cs));
          Metric.memory := Z.min 100 (Z.max 0 (baseMemory b + fl + ms));
          Metric.disk := Z.min 100 (Z.max 0 (baseDisk b + rD));
          Metric.temperature := Z.min 50 (Z.max 15 (baseTemp b + rT));
          Metric.network := Z.min 100 (Z.max 0 (baseNetwork b + rN));
          Metric.errors := Z.max 0 (baseErrors b + rE);
          Metric.users := Z.max 0 (baseUsers b + rU);
          Metric.responseTime := Z.max 50 (baseResponseTime b + rR) |} ]).
Proof.
  unfold iteration. run_rand.
  do 17 eexists. refine (conj _ eq_refl).
  assert (R := getRandomValue_range random random_unit).
  repeat split;
    try (apply R; lia);
    destruct (i =? spikePoint); cbn [fst ret];
    try (pose proof (R 20 40 (S k) ltac:(lia)));
    try (pose proof (R 15 30 (S (S k)) ltac:(lia)));
    unfold ret; cbn [fst]; try lia;
    match goal with
    | |- context [fst (getRandomValue random ?a ?c ?j)] =>
        pose proof (R a c j ltac:(lia)); lia
    end.
Qed.

(** The number of draws of one pass: fifteen, and two more at the spike. *)
Lemma iteration_draws now p spikePoint i b data k :
  snd (iteration random now p spikePoint i b data k) =
  (k + 15 + (if (i =? spikePoint)%Z then 2 else 0))%nat.
Proof.
  unfold iteration. run_rand.
  destruct (i =? spikePoint); unfold ret; cbn [snd];
    repeat rewrite getRandomValue_next; lia.
Qed.

Lemma loop_draws now p spikePoint (n : nat) :
  forall i b data k,
    snd (loop random now p spikePoint n i b data k) =
    (k + 15 * n
     + (if ((i <=? spikePoint) && (spikePoint <? i + Z.of_nat n))%Z then 2 else 0))%nat.
Proof.
  induction n as [|n IH]; intros i b data k.
  - cbn [loop]. unfold ret. cbn [snd].
    destruct (Z.leb_spec i spikePoint), (Z.ltb_spec spikePoint (i + Z.of_nat 0));
      cbn; lia.
  - cbn [loop]. rewrite bind_run, IH, iteration_draws.
    destruct (Z.eqb_spec i spikePoint), (Z.leb_spec (i + 1) spikePoint),
      (Z.ltb_spec spikePoint (i + 1 + Z.of_nat n)),
      (Z.leb_spec i spikePoint), (Z.ltb_spec spikePoint (i + Z.of_nat (S n)));
      cbn [andb]; lia.
Qed.

Lemma points_cases (timeRange : string) :
  let n := Policy.points (rangePolicy timeRange) in
  n = 60 \/ n = 24 \/ n = 7 \/ n = 30.
Proof.
  destruct (rangePolicy_cases timeRange) as [P | [P | [P | P]]];
    cbv zeta; rewrite P; cbn; auto.
Qed.

Lemma generateMockData_draws now timeRange :
  drawsUsed random now timeRange =
  (15 * Z.to_nat (Policy.points (rangePolicy timeRange)) + 11)%nat.
Proof.
  unfold drawsUsed, generateMockData_rand. cbv zeta. run_rand.
  rewrite loop_draws.
  assert (Hk : snd (initialBases random O) = 8%nat) by reflexivity.
  rewrite Hk, getRandomValue_next.
  pose proof (points_cases timeRange) as Hp. cbv zeta in Hp.
  pose proof (getRandomValue_range random random_unit 0
                (Policy.points (rangePolicy timeRange) - 1) 8%nat ltac:(lia)) as Hs.
  destruct (Z.leb_spec 0
              (fst (getRandomValue random 0 (Policy.points (rangePolicy timeRange) - 1) 8%nat)));
    [| lia].
  destruct (Z.ltb_spec
              (fst (getRandomValue random 0 (Policy.points (rangePolicy timeRange) - 1) 8%nat))
              (0 + Z.of_nat (Z.to_nat (Policy.points (rangePolicy timeRange)))));
    cbn [andb]; lia.
Qed.

End GeneratorDraws.

Lemma indices_range (n : nat) :
  forall i j, In j (indices i n) -> i <= j < i + Z.of_nat n.
Proof.
  induction n as [|n IH]; intros i j Hin; [contradiction |].
  cbn [indices] in Hin. destruct Hin as [<- | Hin]; [lia |].
  apply IH in Hin. lia.
Qed.

Lemma indices_sorted (f : Z -> Z) (n : nat) :
  (forall x y, x < y -> f x < f y) ->
  forall i, StronglySorted Z.lt (map f (indices i n)).
Proof.
  intros Hf. induction n as [|n IH]; intros i; cbn [indices map]; constructor.
  - apply IH.
  - apply Forall_forall. intros y Hy. apply in_map_iff in Hy.
    destruct Hy as (j & <- & Hj). apply indices_range in Hj. apply Hf. lia.
Qed.

(** X2.  The samples of a series come in strictly increasing order of time
    stamp, none is stamped later than the time of the call, and the first
    one is stamped [(points - 1) * interval] before it, whatever the range
    key and the random draws. *)
Theorem generateMockData_ascending (random : nat -> Q) (now : Date) (timeRange : string) :
  let p := rangePolicy timeRange in
  let data := generateMockData random now timeRange in
  StronglySorted Z.lt (timestamps data) /\
  Forall (fun t => t <= now) (timestamps data) /\
  hd_error (timestamps data) = Some (now - (Policy.points p - 1) * Policy.interval p).
Proof.
  intros p data. subst data.
  rewrite generateMockData_timestamps. fold p.
  assert (Hp : 0 < Policy.interval p /\ exists n, Z.to_nat (Policy.points p) = S n
                /\ Policy.points p = Z.of_nat (S n)).
  { subst p. destruct (rangePolicy_cases timeRange) as [E | [E | [E | E]]];
      rewrite E; cbn; (split; [lia | eexists; split; reflexivity]). }
  destruct Hp as (Hi & n & En & Ep).
  split; [| split].
  - apply indices_sorted. intros x y Hxy. nia.
  - apply Forall_forall. intros t Ht. apply in_map_iff in Ht.
    destruct Ht as (j & <- & Hj). apply indices_range in Hj. nia.
  - rewrite En. cbn [indices map hd_error]. f_equal. lia.
Qed.

(** X3.  A call of [generateMockData] makes exactly [15 * points + 11]
    calls of [Math.random()], whatever their results: 911 for "1h", 371 for
    "24h", 116 for "7d", 461 for "30d".  Exactly one pass of the loop draws
    the two spike values. *)
Theorem generateMockData_draw_count (random : nat -> Q) (now : Date) :
  unitInterval random ->
  (forall timeRange,
     drawsUsed random now timeRange =
     (15 * Z.to_nat (Policy.points (rangePolicy timeRange)) + 11)%nat) /\
  drawsUsed random now "1h" = 911%nat /\
  drawsUsed random now "24h" = 371%nat /\
  drawsUsed random now "7d" = 116%nat /\
  drawsUsed random now "30d" = 461%nat.
Proof.
  intros U.
  assert (H := generateMockData_draws random U now).
  split; [exact H |].
  repeat split; rewrite H; reflexivity.
Qed.

Lemma generateMockData_draw_count_witness :
  unitInterval (fun _ => 99 # 100) /\
  drawsUsed (fun _ => 99 # 100) 0 "7d" = 116%nat.
Proof.
  split; [exact high_draws_unit |].
  exact (proj1 (proj2 (proj2 (proj2
           (generateMockData_draw_count (fun _ => 99 # 100) 0 high_draws_unit))))).
Defined.

Lemma loop_shifted (random : nat -> Q) (d : Z) now p spikePoint (n : nat) :
  forall i b data k,
    loop random (now + d) p spikePoint n i b (map (shifted d) data) k =
    (map (shifted d) (fst (loop random now p spikePoint n i b data k)),
     snd (loop random now p spikePoint n i b data k)).
Proof.
  induction n as [|n IH]; intros i b data k.
  - reflexivity.
  - cbn [loop]. rewrite !bind_run.
    assert (E : iteration random (now + d) p spikePoint i b (map (shifted d) data) k =
                ((fst (fst (iteration random now p spikePoint i b data k)),
                  map (shifted d) (snd (fst (iteration random now p spikePoint i b data k)))),
                 snd (iteration random now p spikePoint i b data k))).
    { unfold iteration. run_rand. rewrite map_app. cbn [map].
      do 4 f_equal. unfold shifted.
      cbn [Metric.timestamp Metric.cpu Metric.memory Metric.disk Metric.temperature
           Metric.network Metric.errors Metric.users Metric.responseTime].
      f_equal. lia. }
    rewrite E. cbn [fst snd]. apply IH.
Qed.

(** X4.  The values of a series do not depend on the time of the call:
    with the same random draws, a call made [d] milliseconds later returns
    the same samples with every time stamp moved by [d]. *)
Theorem generateMockData_time_shift
    (random : nat -> Q) (now d : Date) (timeRange : string) :
  generateMockData random (now + d) timeRange =
  map (shifted d) (generateMockData random now timeRange).
Proof.
  unfold generateMockData, generateMockData_rand. cbv zeta. run_rand.
  change (@nil Metric.ServerMetric) with (map (shifted d) []) at 1.
  rewrite loop_shifted. reflexivity.
Qed.

Lemma initialBases_ranges (random : nat -> Q) (k : nat) :
  unitInterval random ->
  let b := fst (initialBases random k) in
  (30 <= baseCpu b <= 60 /\ 40 <= baseMemory b <= 70 /\
   50 <= baseDisk b <= 80 /\ 20 <= baseTemp b <= 30) /\
  (30 <= baseNetwork b <= 70 /\ 0 <= baseErrors b <= 10 /\
   50 <= baseUsers b <= 200 /\ 100 <= baseResponseTime b <= 500).
Proof.
  intros U. cbv zeta. unfold initialBases. run_rand.
  cbn [baseCpu baseMemory baseDisk baseTemp baseNetwork baseErrors baseUsers
       baseResponseTime].
  repeat split; apply (getRandomValue_range random U); lia.
Qed.

Lemma loop_drift_bounds (random : nat -> Q) now p spikePoint (n : nat) :
  unitInterval random ->
  forall i b data k,
    50 <= baseDisk b ->
    baseUsers b + 10 * Z.of_nat n + 10 <= 810 ->
    baseResponseTime b + 20 * Z.of_nat n + 30 <= 1730 ->
    Forall (fun sample => 48 <= Metric.disk sample /\ Metric.users sample <= 810 /\
                          Metric.responseTime sample <= 1730) data ->
    Forall (fun sample => 48 <= Metric.disk sample /\ Metric.users sample <= 810 /\
                          Metric.responseTime sample <= 1730)
           (fst (loop random now p spikePoint n i b data k)).
Proof.
  intros U. induction n as [|n IH]; intros i b data k Hd Hu Hr Hdata.
  - exact Hdata.
  - cbn [loop]. rewrite bind_run.
    destruct (iteration_shape random U now p spikePoint i b data k)
      as (fl & cs & ms & rD & rT & rN & rE & rU & rR & dC & dM & dD & dT & dN & dE
          & dU & dR & R & E).
    rewrite E. cbn [fst snd]. apply IH;
      cbn [baseDisk baseUsers baseResponseTime]; try lia.
    apply Forall_app. split; [exact Hdata |].
    constructor; [| constructor].
    cbn [Metric.disk Metric.users Metric.responseTime]. lia.
Qed.

(** X5.  With [Math.random()] in its range the fields that have no upper
    clamp are bounded all the same, and the disk usage never falls far:
    every sample has disk at least 48 (the base starts at 50 or more and
    never decreases), users at most 810 and response time at most 1730.
    Each of the three bounds is reached by some series. *)
Theorem generateMockData_drift_bounds :
  (forall (random : nat -> Q) (now : Date) (timeRange : string),
     unitInterval random ->
     Forall (fun sample => 48 <= Metric.disk sample /\ Metric.users sample <= 810 /\
                           Metric.responseTime sample <= 1730)
            (generateMockData random now timeRange)) /\
  (unitInterval (fun _ => 999 # 1000) /\
   Exists (fun sample => Metric.users sample = 810 /\ Metric.responseTime sample = 1730)
          (generateMockData (fun _ => 999 # 1000) 0 "1h")) /\
  (unitInterval (fun _ => 0%Q) /\
   Exists (fun sample => Metric.disk sample = 48)
          (generateMockData (fun _ => 0%Q) 0 "1h")).
Proof.
  split; [| split; (split; [intros k; split; [discriminate | reflexivity] |])].
  - intros random now timeRange U.
    destruct (generateMockData_loop random now timeRange) as (sp & k & E).
    rewrite E.
    destruct (initialBases_ranges random O U) as ((_ & _ & Hd & _) & (_ & _ & Hu & Hr)).
    pose proof (points_cases timeRange) as Hp. cbv zeta in Hp.
    apply loop_drift_bounds; try exact U; try constructor;
      try rewrite Z2Nat.id; lia.
  - apply Exists_exists.
    exists (nth 59 (generateMockData (fun _ => 999 # 1000) 0 "1h")
              (Metric.Build_ServerMetric 0 0 0 0 0 0 0 0 0)).
    split; [apply nth_In; vm_compute; lia | vm_compute; split; reflexivity].
  - apply Exists_exists.
    exists (nth 0 (generateMockData (fun _ => 0%Q) 0 "1h")
              (Metric.Build_ServerMetric 0 0 0 0 0 0 0 0 0)).
    split; [apply nth_In; vm_compute; lia | vm_compute; reflexivity].
Qed.

Lemma generateMockData_drift_bounds_witness :
  unitInterval (fun _ => 99 # 100) /\
  Forall (fun sample => 48 <= Metric.disk sample /\ Metric.users sample <= 810 /\
                        Metric.responseTime sample <= 1730)
         (generateMockData (fun _ => 99 # 100) 0 "30d").
Proof.
  split; [exact high_draws_unit |].
  exact (proj1 generateMockData_drift_bounds (fun _ => 99 # 100) 0 "30d"%string
           high_draws_unit).
Defined.

(** ** The dashboard view *)

Lemma latestData_last (pre : list Metric.ServerMetric) (x : Metric.ServerMetric) :
  latestData (pre ++ [x]) = Some x.
Proof.
  unfold latestData. rewrite length_app. cbn [List.length].
  replace (List.length pre + 1 - 1)%nat with (List.length pre) by lia.
  replace (0 <? List.length pre + 1)%nat with true
    by (symmetry; apply Nat.ltb_lt; lia).
  rewrite nth_error_app2 by lia. rewrite Nat.sub_diag. reflexivity.
Qed.

(** X6.  The dashboard takes its cards from the last sample of the series,
    and has none for an empty series.  For a generated series there always
    is one: it is stamped with the time of the call and its percentage
    fields and temperature are within their bounds, whatever the range key
    and the random draws. *)
Theorem latestData_of_series (random : nat -> Q) (now : Date) (timeRange : string) :
  latestData [] = None /\
  exists sample,
    latestData (generateMockData random now timeRange) = Some sample /\
    Metric.timestamp sample = now /\
    0 <= Metric.cpu sample <= 100 /\ 0 <= Metric.memory sample <= 100 /\
    0 <= Metric.disk sample <= 100 /\ 0 <= Metric.network sample <= 100 /\
    15 <= Metric.temperature sample <= 50.
Proof.
  split; [reflexivity |].
  destruct (series_shape random now timeRange) as (L & _ & T).
  set (data := generateMockData random now timeRange) in *.
  assert (Hne : data <> []).
  { intros E. rewrite E in L. cbn in L.
    pose proof (points_cases timeRange) as Hp. cbv zeta in Hp. lia. }
  destruct (exists_last Hne) as (pre & x & E).
  exists x. rewrite E, latestData_last. split; [reflexivity |].
  split.
  - rewrite E in T. unfold timestamps in T. rewrite map_app in T. cbn [map] in T.
    rewrite last_last in T. exact T.
  - assert (B : Forall (fun sample =>
                          0 <= Metric.cpu sample <= 100 /\
                          0 <= Metric.memory sample <= 100 /\
                          0 <= Metric.disk sample <= 100 /\
                          0 <= Metric.network sample <= 100 /\
                          15 <= Metric.temperature sample <= 50) data).
    { apply generateMockData_Forall. intros sp i b dat k sample Es.
      destruct (iteration_pushes random now (rangePolicy timeRange) sp i b dat k)
        as (smp & E' & _ & B & _).
      rewrite E' in Es. apply app_inj_tail in Es. destruct Es as [_ <-]. lia. }
    rewrite Forall_forall in B. apply B. rewrite E. apply in_or_app.
    right. left. reflexivity.
Qed.

(** ** Threshold evaluator, further *)

Ltac compare_rationals :=
  repeat match goal with
         | H : context [(?p ?= ?q)%Q] |- _ => destruct (Qcompare_spec p q)
         | |- context [(?p ?= ?q)%Q] => destruct (Qcompare_spec p q)
         end;
  try reflexivity; try discriminate; try lra.

Lemma ge_le_trans (a b c : JS.number) :
  JS.ge a c = true -> JS.le a b = true -> JS.ge b c = true.
Proof.
  destruct a as [| |p|], b as [| |q|], c as [| |r|]; cbn [JS.ge JS.le];
    try reflexivity; try discriminate.
  intros H1 H2. compare_rationals.
Qed.

(** X7.  The evaluator is monotone in the value: when a reading is red so
    is every reading that is not smaller, and when a reading is green so
    is every reading that is not larger, for any pair of thresholds, in
    order or not.  Colour and class go together. *)
Theorem getStatusColor_monotone (v1 v2 w c : JS.number) :
  JS.le v1 v2 = true ->
  (getStatusColor v1 w c = "rgb(239, 68, 68)"%string ->
   getStatusColor v2 w c = "rgb(239, 68, 68)"%string) /\
  (getStatusColor v2 w c = "rgb(34, 197, 94)"%string ->
   getStatusColor v1 w c = "rgb(34, 197, 94)"%string) /\
  (getStatusClass v1 w c = "bg-red-500"%string ->
   getStatusClass v2 w c = "bg-red-500"%string) /\
  (getStatusClass v2 w c = "bg-green-500"%string ->
   getStatusClass v1 w c = "bg-green-500"%string).
Proof.
  intros Hle.
  assert (Hc : JS.ge v1 c = true -> JS.ge v2 c = true)
    by (intros H; exact (ge_le_trans v1 v2 c H Hle)).
  assert (Hw : JS.ge v1 w = true -> JS.ge v2 w = true)
    by (intros H; exact (ge_le_trans v1 v2 w H Hle)).
  unfold getStatusColor, getStatusClass.
  destruct (JS.ge v1 c), (JS.ge v1 w), (JS.ge v2 c) eqn:E2, (JS.ge v2 w) eqn:E3;
    try (specialize (Hc eq_refl)); try (specialize (Hw eq_refl));
    repeat split; intros; try reflexivity; try discriminate.
Qed.

Lemma getStatusColor_monotone_witness :
  JS.le (JS.int 91) (JS.int 97) = true /\
  (getStatusColor (JS.int 91) (JS.int 70) (JS.int 90) = "rgb(239, 68, 68)"%string ->
   getStatusColor (JS.int 97) (JS.int 70) (JS.int 90) = "rgb(239, 68, 68)"%string).
Proof.
  split; [reflexivity |].
  exact (proj1 (getStatusColor_monotone (JS.int 91) (JS.int 97) (JS.int 70) (JS.int 90)
                  eq_refl)).
Defined.

(** X8.  The status text of a card and its colour are computed apart, the
    text testing the warning threshold first and the colour the critical
    one.  For a value that is a number and thresholds with
    warning <= critical they agree: "Normal" with green, "Warning" with
    yellow, "Critical" with red.  They part when the thresholds are out of
    order (5 against warning 10 and critical 3 reads "Normal" in red) and
    for a value that is not a number ("Critical" in green). *)
Theorem statusLabel_agrees_with_colour (v w c : JS.number) :
  (JS.le w c = true -> JS.ge v v = true ->
   (statusLabel v w c = "Normal"%string /\
    getStatusColor v w c = "rgb(34, 197, 94)"%string /\
    getStatusClass v w c = "bg-green-500"%string) \/
   (statusLabel v w c = "Warning"%string /\
    getStatusColor v w c = "rgb(234, 179, 8)"%string /\
    getStatusClass v w c = "bg-yellow-500"%string) \/
   (statusLabel v w c = "Critical"%string /\
    getStatusColor v w c = "rgb(239, 68, 68)"%string /\
    getStatusClass v w c = "bg-red-500"%string)) /\
  (statusLabel (JS.int 5) (JS.int 10) (JS.int 3) = "Normal"%string /\
   getStatusColor (JS.int 5) (JS.int 10) (JS.int 3) = "rgb(239, 68, 68)"%string) /\
  (statusLabel JS.NaN w c = "Critical"%string /\
   getStatusColor JS.NaN w c = "rgb(34, 197, 94)"%string).
Proof.
  split; [| split; [split; reflexivity | split; reflexivity]].
  unfold statusLabel, getStatusColor, getStatusClass.
  destruct v as [| |p|], w as [| |q|], c as [| |r|]; cbn [JS.ge JS.le JS.lt];
    try discriminate; intros H1 H2; try tauto;
    compare_rationals; tauto.
Qed.

Lemma statusLabel_agrees_with_colour_witness :
  JS.le (JS.int 70) (JS.int 90) = true /\ JS.ge (JS.int 75) (JS.int 75) = true /\
  statusLabel (JS.int 75) (JS.int 70) (JS.int 90) = "Warning"%string /\
  getStatusColor (JS.int 75) (JS.int 70) (JS.int 90) = "rgb(234, 179, 8)"%string.
Proof.
  split; [reflexivity | split; [reflexivity |]].
  destruct (proj1 (statusLabel_agrees_with_colour (JS.int 75) (JS.int 70) (JS.int 90))
              eq_refl eq_refl) as [(H & _) | [(H & Hc & _) | (H & _)]];
    [discriminate H | split; assumption | discriminate H].
Defined.

(** ** Alert store, further *)

Lemma dismissIn_twice (id : string) (l : list Alert.Alert) :
  dismissIn id (dismissIn id l) = dismissIn id l.
Proof.
  unfold dismissIn. rewrite map_map. apply map_ext. intros a.
  destruct (Alert.id a =? id)%string eqn:E; cbn [Alert.with_dismissed Alert.id];
    rewrite E; reflexivity.
Qed.

Lemma acknowledgeIn_twice (id : string) (l : list Alert.Alert) :
  acknowledgeIn id (acknowledgeIn id l) = acknowledgeIn id l.
Proof.
  unfold acknowledgeIn. rewrite map_map. apply map_ext. intros a.
  destruct (Alert.id a =? id)%string eqn:E; cbn [Alert.with_acknowledged Alert.id];
    rewrite E; reflexivity.
Qed.

Lemma dismissIn_acknowledgeIn (i j : string) (l : list Alert.Alert) :
  dismissIn i (acknowledgeIn j l) = acknowledgeIn j (dismissIn i l).
Proof.
  unfold dismissIn, acknowledgeIn. rewrite !map_map. apply map_ext. intros a.
  destruct (Alert.id a =? j)%string eqn:Ej, (Alert.id a =? i)%string eqn:Ei;
    cbn [Alert.with_dismissed Alert.with_acknowledged Alert.id
         Alert.acknowledged Alert.dismissed];
    rewrite ?Ei, ?Ej; reflexivity.
Qed.

Lemma dismissIn_dismissIn (i j : string) (l : list Alert.Alert) :
  dismissIn i (dismissIn j l) = dismissIn j (dismissIn i l).
Proof.
  unfold dismissIn. rewrite !map_map. apply map_ext. intros a.
  destruct (Alert.id a =? j)%string eqn:Ej, (Alert.id a =? i)%string eqn:Ei;
    cbn [Alert.with_dismissed Alert.id Alert.dismissed];
    rewrite ?Ei, ?Ej; reflexivity.
Qed.

Lemma acknowledgeIn_acknowledgeIn (i j : string) (l : list Alert.Alert) :
  acknowledgeIn i (acknowledgeIn j l) = acknowledgeIn j (acknowledgeIn i l).
Proof.
  unfold acknowledgeIn. rewrite !map_map. apply map_ext. intros a.
  destruct (Alert.id a =? j)%string eqn:Ej, (Alert.id a =? i)%string eqn:Ei;
    cbn [Alert.with_acknowledged Alert.id Alert.acknowledged];
    rewrite ?Ei, ?Ej; reflexivity.
Qed.

Ltac project_cells :=
  cbn [darkMode timeRange showSidebar alerts showNotifications showSettings
       expandedWidget activeSidebarItem showServersPanel showAlertsPanel
       showUsersPanel showReportsPanel isLandingPage thresholds].

(** X9.  Dismissing and acknowledging are idempotent and commute, with
    each other and among themselves, for equal or different identifiers:
    the state after a series of such clicks does not depend on their order
    or on repetitions. *)
Theorem alert_clicks_compose (i j : string) (s : Dashboard) :
  dismissAlert i (dismissAlert i s) = dismissAlert i s /\
  acknowledgeAlert i (acknowledgeAlert i s) = acknowledgeAlert i s /\
  dismissAlert i (acknowledgeAlert j s) = acknowledgeAlert j (dismissAlert i s) /\
  dismissAlert i (dismissAlert j s) = dismissAlert j (dismissAlert i s) /\
  acknowledgeAlert i (acknowledgeAlert j s) = acknowledgeAlert j (acknowledgeAlert i s).
Proof.
  destruct s as [dm tr sb al sn st ew ai p1 p2 p3 p4 lp th].
  unfold dismissAlert, acknowledgeAlert, setAlerts; project_cells.
  rewrite dismissIn_twice, acknowledgeIn_twice, dismissIn_acknowledgeIn,
    (dismissIn_dismissIn i j), (acknowledgeIn_acknowledgeIn i j).
  repeat split.
Qed.

(** ** Thresholds, further *)

(** X10.  Threshold edits compose as writes to independent slots: edits
    of different (metric, level) slots commute, of two edits of one slot
    the later one stands, and storing the value a slot already holds
    changes nothing.  Nothing is validated: from the initial thresholds one
    edit puts the warning level of cpu above its critical level. *)
Theorem updateThreshold_composes
    (k1 k2 : Thresholds.Key) (l1 l2 : Threshold.Level) (v1 v2 : JS.number)
    (s : Dashboard) :
  (Thresholds.Key_eqb k1 k2 && Threshold.Level_eqb l1 l2 = false ->
   updateThreshold k1 l1 v1 (updateThreshold k2 l2 v2 s) =
   updateThreshold k2 l2 v2 (updateThreshold k1 l1 v1 s)) /\
  updateThreshold k1 l1 v1 (updateThreshold k1 l1 v2 s) = updateThreshold k1 l1 v1 s /\
  updateThreshold k1 l1 (Threshold.get l1 (Thresholds.get k1 (thresholds s))) s = s /\
  (let th := thresholds (updateThreshold Thresholds.Cpu Threshold.Warning (JS.int 95)
                           (initialDashboard 0)) in
   JS.lt (Threshold.critical (Thresholds.cpu th))
         (Threshold.warning (Thresholds.cpu th)) = true).
Proof.
  destruct s as [dm tr sb al sn st ew ai p1 p2 p3 p4 lp
                   [[w1 c1] [w2 c2] [w3 c3] [w4 c4] [w5 c5] [w6 c6]]].
  split; [| split; [| split; [| reflexivity]]].
  - destruct k1, k2, l1, l2; cbn; intros H; try discriminate H; reflexivity.
  - destruct k1, l1; reflexivity.
  - destruct k1, l1; reflexivity.
Qed.

Lemma updateThreshold_composes_witness :
  Thresholds.Key_eqb Thresholds.Cpu Thresholds.Disk
    && Threshold.Level_eqb Threshold.Warning Threshold.Warning = false /\
  updateThreshold Thresholds.Cpu Threshold.Warning (JS.int 80)
    (updateThreshold Thresholds.Disk Threshold.Warning (JS.int 60) (initialDashboard 0)) =
  updateThreshold Thresholds.Disk Threshold.Warning (JS.int 60)
    (updateThreshold Thresholds.Cpu Threshold.Warning (JS.int 80) (initialDashboard 0)).
Proof.
  split; [reflexivity |].
  exact (proj1 (updateThreshold_composes Thresholds.Cpu Thresholds.Disk
                  Threshold.Warning Threshold.Warning (JS.int 80) (JS.int 60)
                  (initialDashboard 0)) eq_refl).
Defined.

(** ** The alert collection over time *)

Lemma sameAlertFlagsUp_refl (x : Alert.Alert) : sameAlertFlagsUp x x.
Proof. unfold sameAlertFlagsUp. tauto. Qed.

Lemma sameAlertFlagsUp_trans (x y z : Alert.Alert) :
  sameAlertFlagsUp x y -> sameAlertFlagsUp y z -> sameAlertFlagsUp x z.
Proof.
  unfold sameAlertFlagsUp.
  intros (A1 & A2 & A3 & A4 & A5 & A6 & A7) (B1 & B2 & B3 & B4 & B5 & B6 & B7).
  repeat split; try congruence; auto.
Qed.

Lemma Forall2_flags_refl (l : list Alert.Alert) : Forall2 sameAlertFlagsUp l l.
Proof. induction l; constructor; [apply sameAlertFlagsUp_refl | assumption]. Qed.

Lemma Forall2_flags_trans (l1 : list Alert.Alert) :
  forall l2 l3,
    Forall2 sameAlertFlagsUp l1 l2 -> Forall2 sameAlertFlagsUp l2 l3 ->
    Forall2 sameAlertFlagsUp l1 l3.
Proof.
  induction l1 as [|x l1 IH]; intros l2 l3 H12 H23;
    inversion H12; subst; inversion H23; subst; constructor.
  - eapply sameAlertFlagsUp_trans; eassumption.
  - eapply IH; eassumption.
Qed.

Lemma dismissIn_flags (id : string) (l : list Alert.Alert) :
  Forall2 sameAlertFlagsUp l (dismissIn id l).
Proof.
  induction l as [|a l IH]; cbn; constructor; [| exact IH].
  destruct (Alert.id a =? id)%string; unfold sameAlertFlagsUp; cbn; tauto.
Qed.

Lemma acknowledgeIn_flags (id : string) (l : list Alert.Alert) :
  Forall2 sameAlertFlagsUp l (acknowledgeIn id l).
Proof.
  induction l as [|a l IH]; cbn; constructor; [| exact IH].
  destruct (Alert.id a =? id)%string; unfold sameAlertFlagsUp; cbn; tauto.
Qed.

Lemma dismissIn_countUnread (id : string) (l : list Alert.Alert) :
  (countUnread (dismissIn id l) <= countUnread l)%nat.
Proof.
  induction l as [|a l IH]; [apply Nat.le_refl |].
  cbn [dismissIn map countUnread]. fold (dismissIn id l).
  destruct (Alert.id a =? id)%string; cbn [Alert.with_dismissed Alert.acknowledged
                                            Alert.dismissed];
    destruct (Alert.acknowledged a), (Alert.dismissed a); lia.
Qed.

Lemma acknowledgeIn_countUnread_le (id : string) (l : list Alert.Alert) :
  (countUnread (acknowledgeIn id l) <= countUnread l)%nat.
Proof.
  induction l as [|a l IH]; [apply Nat.le_refl |].
  cbn [acknowledgeIn map countUnread]. fold (acknowledgeIn id l).
  destruct (Alert.id a =? id)%string; cbn [Alert.with_acknowledged Alert.acknowledged
                                            Alert.dismissed];
    destruct (Alert.acknowledged a), (Alert.dismissed a); lia.
Qed.

Lemma step_alerts_grow (a : Action) (s : Dashboard) :
  exists newer kept,
    alerts (step a s) = newer ++ kept /\
    Forall2 sameAlertFlagsUp (alerts s) kept /\
    (List.length newer <= Nat.b2n (isTimer a))%nat.
Proof.
  destruct (step_alerts a s)
    as [E | [(id & _ & E) | [(id & _ & E) | (dn & nd & r0 & r1 & r2 & r3 & al & Ea & _ & E)]]];
    rewrite E.
  - exists [], (alerts s). repeat split; [apply Forall2_flags_refl | cbn; lia].
  - exists [], (dismissIn id (alerts s)).
    repeat split; [apply dismissIn_flags | cbn; lia].
  - exists [], (acknowledgeIn id (alerts s)).
    repeat split; [apply acknowledgeIn_flags | cbn; lia].
  - exists [al], (alerts s). subst a.
    repeat split; [apply Forall2_flags_refl | cbn; lia].
Qed.

Lemma step_count (a : Action) (s : Dashboard) :
  (notificationCount (step a s) <= notificationCount s + Nat.b2n (isTimer a))%nat.
Proof.
  unfold notificationCount. rewrite !notificationCountOf_countUnread.
  destruct (step_alerts a s)
    as [E | [(id & _ & E) | [(id & _ & E) | (dn & nd & r0 & r1 & r2 & r3 & al & Ea & _ & E)]]];
    rewrite E.
  - lia.
  - pose proof (dismissIn_countUnread id (alerts s)). lia.
  - pose proof (acknowledgeIn_countUnread_le id (alerts s)). lia.
  - subst a. cbn [countUnread isTimer Nat.b2n].
    destruct (Alert.acknowledged al), (Alert.dismissed al); lia.
Qed.

Lemma timerTicks_cons (a : Action) (events : list Action) :
  timerTicks (a :: events) = (Nat.b2n (isTimer a) + timerTicks events)%nat.
Proof. unfold timerTicks. cbn [filter]. destruct (isTimer a); reflexivity. Qed.

(** X11.  No sequence of events removes, reorders or rewrites an alert.
    After any events the collection is the one before, alert for alert and
    in the same order, each with the same identifier, time stamp, severity,
    source and description and with no flag cleared, behind the alerts that
    arrived meanwhile; and at most one alert arrives per timer callback. *)
Theorem alerts_are_kept (events : list Action) :
  forall s,
    exists newer kept,
      alerts (run events s) = newer ++ kept /\
      Forall2 sameAlertFlagsUp (alerts s) kept /\
      (List.length newer <= timerTicks events)%nat.
Proof.
  induction events as [|a events IH]; intros s.
  - exists [], (alerts s). repeat split; [apply Forall2_flags_refl | cbn; lia].
  - change (run (a :: events) s) with (run events (step a s)).
    destruct (IH (step a s)) as (newer & kept & E & F & L).
    destruct (step_alerts_grow a s) as (new1 & kept1 & E1 & F1 & L1).
    rewrite E1 in F. apply Forall2_app_inv_l in F.
    destruct F as (k1 & k2 & Fn & Fk & ->).
    exists (newer ++ k1), k2. rewrite E, app_assoc. split; [reflexivity |].
    split; [eapply Forall2_flags_trans; eassumption |].
    rewrite length_app, timerTicks_cons.
    apply Forall2_length in Fn. lia.
Qed.

(** X12.  Only the timer raises the notification count: after any
    sequence of events it is at most what it was plus the number of timer
    callbacks among them.  It never exceeds the number of alerts that are
    not dismissed. *)
Theorem notificationCount_bounded (events : list Action) :
  forall s,
    (notificationCount (run events s) <= notificationCount s + timerTicks events)%nat /\
    (notificationCount s <= List.length (activeAlerts s))%nat.
Proof.
  induction events as [|a events IH]; intros s.
  - split; [cbn; lia |].
    unfold notificationCount, notificationCountOf, activeAlerts, activeAlertsOf.
    induction (alerts s) as [|x l IHl]; [apply Nat.le_refl |].
    cbn [filter]. destruct (Alert.acknowledged x), (Alert.dismissed x);
      cbn [negb andb List.length]; lia.
  - change (run (a :: events) s) with (run events (step a s)).
    split; [| apply (IH s)].
    pose proof (proj1 (IH (step a s))) as H1. pose proof (step_count a s) as H2.
    rewrite timerTicks_cons. lia.
Qed.

(** ** The alert timer *)

Lemma floor_scaled (r : Q) (n : Z) :
  (0 <= r)%Q -> (r < 1)%Q -> 0 < n -> 0 <= Qfloor (r * inject_Z n) < n.
Proof.
  intros H0 H1 Hn.
  assert (Hq : (inject_Z 0 < inject_Z n)%Q) by (rewrite <- Zlt_Qlt; exact Hn).
  split.
  - change 0 with (Qfloor 0). apply Qfloor_resp_le.
    apply Qmult_le_0_compat; [exact H0 | apply Qlt_le_weak, Hq].
  - rewrite Zlt_Qlt. eapply Qle_lt_trans; [apply Qfloor_le |].
    rewrite <- (Qmult_1_l (inject_Z n)) at 2.
    apply Qmult_lt_compat_r; assumption.
Qed.

Lemma pick_in {A} (default : A) (arr : list A) (r : Q) :
  (0 <= r)%Q -> (r < 1)%Q -> arr <> [] -> In (pick default arr r) arr.
Proof.
  intros H0 H1 Hne. unfold pick. apply nth_In.
  assert (Hl : 0 < Z.of_nat (List.length arr))
    by (destruct arr; [contradiction | cbn [List.length]; lia]).
  pose proof (floor_scaled r _ H0 H1 Hl). lia.
Qed.

(** X13.  A callback of the alert timer whose first draw is below 0.3
    puts exactly one new alert at the front of the collection: stamped
    [new Date()], named after [Date.now()], neither acknowledged nor
    dismissed, so that the notification count goes up by one; its source
    and description are entries of the two tables whenever the draws are
    results of [Math.random()].  With a first draw of 0.3 or more the
    callback changes nothing.  No other cell is written either way. *)
Theorem alertTimer_behaviour
    (dateNow newDate : Date) (r0 r1 r2 r3 : Q) (s : Dashboard) :
  ((r0 < threeTenths)%Q ->
   exists alert,
     alertTimer dateNow newDate r0 r1 r2 r3 s = setAlerts (alert :: alerts s) s /\
     Alert.id alert = timerAlertId dateNow /\
     Alert.timestamp alert = newDate /\
     Alert.acknowledged alert = false /\ Alert.dismissed alert = false /\
     notificationCount (alertTimer dateNow newDate r0 r1 r2 r3 s)
       = S (notificationCount s) /\
     ((0 <= r2)%Q -> (r2 < 1)%Q -> In (Alert.source alert) sources) /\
     ((0 <= r3)%Q -> (r3 < 1)%Q -> In (Alert.description alert) descriptions)) /\
  (~ (r0 < threeTenths)%Q -> alertTimer dateNow newDate r0 r1 r2 r3 s = s).
Proof.
  split.
  - intros H. unfold alertTimer. rewrite (proj1 (Qlt_alt _ _) H).
    eexists. split; [reflexivity |].
    cbn [Alert.id Alert.timestamp Alert.acknowledged Alert.dismissed
         Alert.source Alert.description].
    do 4 (split; [reflexivity |]).
    split; [destruct s; reflexivity |].
    split; intros H0 H1; (apply pick_in; [assumption | assumption | discriminate]).
  - intros H. unfold alertTimer.
    destruct (Qcompare_spec r0 threeTenths) as [_ | L | _];
      [reflexivity | contradiction | reflexivity].
Qed.

Lemma alertTimer_behaviour_witness :
  (1 # 10 < threeTenths)%Q /\
  notificationCount
    (alertTimer 1700000000000 1700000000001 (1 # 10) (1 # 2) (1 # 2) (1 # 2)
       (initialDashboard 0))
  = S (notificationCount (initialDashboard 0)).
Proof.
  assert (H : (1 # 10 < threeTenths)%Q) by reflexivity.
  split; [exact H |].
  destruct (proj1 (alertTimer_behaviour 1700000000000 1700000000001
                     (1 # 10) (1 # 2) (1 # 2) (1 # 2) (initialDashboard 0)) H)
    as (alert & _ & _ & _ & _ & _ & Hc & _).
  exact Hc.
Defined.

Lemma NoDup_ids_inj (l : list Alert.Alert) :
  NoDup (alertIds l) ->
  forall a b, In a l -> In b l -> Alert.id a = Alert.id b -> a = b.
Proof.
  induction l as [|x l IH]; intros ND a b Ha Hb E; [contradiction |].
  cbn [alertIds map] in ND. inversion ND as [| ? ? Hn ND']; subst.
  destruct Ha as [-> | Ha], Hb as [-> | Hb].
  - reflexivity.
  - exfalso. apply Hn. rewrite E. apply in_map. exact Hb.
  - exfalso. apply Hn. rewrite <- E. apply in_map. exact Ha.
  - apply IH; assumption.
Qed.

(** X14.  As long as [Date.now()] advances from one timer callback to the
    next, an identifier names one alert: in every state the page reaches
    the identifiers of the collection are pairwise distinct, the
    zero-padded ones of the first five alerts and the time-stamped ones of
    the timer never meeting. *)
Theorem alert_ids_name_one_alert (now clock : Date) (s : Dashboard) :
  reachableClocked now clock s ->
  NoDup (alertIds (alerts s)) /\
  (forall a b, In a (alerts s) -> In b (alerts s) ->
               Alert.id a = Alert.id b -> a = b).
Proof.
  intros R. destruct (clocked_ids_distinct now clock s R) as [ND _].
  split; [exact ND | exact (NoDup_ids_inj _ ND)].
Qed.

Lemma alert_ids_name_one_alert_witness :
  let s := step (AlertTimer 1700000000000 1700000000001 (1 # 10) (1 # 2) (1 # 2) (1 # 2))
             (initialDashboard 0) in
  reachableClocked 0 (1700000000000 + 1) s /\
  List.length (alerts s) = 6%nat /\
  NoDup (alertIds (alerts s)).
Proof.
  intros s.
  assert (R : reachableClocked 0 (1700000000000 + 1) s).
  { apply (clocked_timer 0 1700000000000 1700000000001 (1 # 10) (1 # 2) (1 # 2) (1 # 2)
             (initialDashboard 0) 0 (clocked_init 0 0)). discriminate. }
  split; [exact R |]. split; [reflexivity |].
  exact (proj1 (alert_ids_name_one_alert 0 _ s R)).
Defined.

(** ** Panel coordinator, further *)

(** X15.  Toggling twice: the dark mode, sidebar, notifications and
    settings toggles undo themselves.  In a state the page can reach, a
    panel toggle undoes itself exactly when no other panel is shown;
    otherwise the second toggle leaves all four panels hidden and the panel
    that was shown before is not brought back. *)
Theorem toggles_twice (now : Date) (s : Dashboard) (p : Panel) :
  reachable now s ->
  toggleDarkMode (toggleDarkMode s) = s /\
  toggleSidebar (toggleSidebar s) = s /\
  toggleNotifications (toggleNotifications s) = s /\
  toggleSettings (toggleSettings s) = s /\
  (togglePanel p (togglePanel p s) = s <->
   forall q, Panel_eqb q p = false -> shown q s = false) /\
  ((exists q, Panel_eqb q p = false /\ shown q s = true) ->
   forall q, shown q (togglePanel p (togglePanel p s)) = false).
Proof.
  intros R. pose proof (reachable_exclusive now s R) as Hx.
  destruct s as [dm tr sb al sn st ew ai p1 p2 p3 p4 lp th].
  unfold panelsShown in Hx; cbn in Hx.
  split; [destruct dm; reflexivity |].
  split; [destruct sb; reflexivity |].
  split; [destruct sn; reflexivity |].
  split; [destruct st; reflexivity |].
  destruct p1, p2, p3, p4; cbn in Hx; try lia; destruct p; cbn; (split; [split |]);
    try (intros _; reflexivity);
    try (intros _ q _; destruct q; reflexivity);
    try (intros [q [Hq Hs]]; destruct q; discriminate);
    try (intros _ q; destruct q; reflexivity);
    try (intros E; discriminate E);
    try (intros _ q Hq; destruct q; cbn in Hq |- *; first [reflexivity | discriminate Hq]);
    intros H;
    first [ discriminate (H ServersPanel eq_refl)
          | discriminate (H AlertsPanel eq_refl)
          | discriminate (H UsersPanel eq_refl)
          | discriminate (H ReportsPanel eq_refl) ].
Qed.

Lemma toggles_twice_witness :
  let s := toggleServersPanel (initialDashboard 0) in
  reachable 0 s /\
  togglePanel ServersPanel (togglePanel ServersPanel s) = s /\
  shown ServersPanel (togglePanel AlertsPanel (togglePanel AlertsPanel s)) = false.
Proof.
  intros s.
  assert (R : reachable 0 s)
    by exact (reachable_step 0 ToggleServersPanel _ (reachable_init 0)).
  split; [exact R |]. split.
  - apply (proj1 (proj2 (proj2 (proj2 (proj2 (toggles_twice 0 s ServersPanel R)))))).
    intros q Hq. destruct q; first [discriminate Hq | reflexivity].
  - apply (proj2 (proj2 (proj2 (proj2 (proj2 (toggles_twice 0 s AlertsPanel R)))))).
    exists ServersPanel. split; reflexivity.
Defined.

(** ** The two views of the alerts *)

Lemma filter_unread (l : list Alert.Alert) :
  filter (fun alert => negb (Alert.acknowledged alert) && negb (Alert.dismissed alert)) l =
  filter (fun alert => negb (Alert.acknowledged alert)) (activeAlertsOf l).
Proof.
  unfold activeAlertsOf. induction l as [|a l IH]; [reflexivity |].
  cbn [filter]. destruct (Alert.acknowledged a) eqn:Ea, (Alert.dismissed a) eqn:Ed;
    cbn [negb andb filter]; rewrite ?Ea; cbn [negb]; rewrite IH; reflexivity.
Qed.

Lemma acknowledgeIn_active_ids (id : string) (l : list Alert.Alert) :
  alertIds (activeAlertsOf (acknowledgeIn id l)) = alertIds (activeAlertsOf l).
Proof.
  unfold activeAlertsOf, alertIds. induction l as [|a l IH]; [reflexivity |].
  cbn [acknowledgeIn map filter]. fold (acknowledgeIn id l).
  destruct (Alert.id a =? id)%string;
    cbn [Alert.with_acknowledged Alert.dismissed];
    destruct (Alert.dismissed a); cbn [negb map Alert.id]; rewrite IH; reflexivity.
Qed.

(** X16.  The notifications drop-down lists the alerts of the alerts
    panel that are not acknowledged, in the same order, and the badge
    number is the length of that list.  So acknowledging an alert takes it
    off the notifications and leaves the alerts panel with the same alerts,
    while dismissing takes it off both. *)
Theorem views_of_alerts (id : string) (s : Dashboard) :
  notificationAlerts s =
    filter (fun alert => negb (Alert.acknowledged alert)) (activeAlerts s) /\
  notificationCount s = List.length (notificationAlerts s) /\
  alertIds (activeAlerts (acknowledgeAlert id s)) = alertIds (activeAlerts s) /\
  (forall a, In a (notificationAlerts (acknowledgeAlert id s)) -> Alert.id a <> id) /\
  (forall a, In a (notificationAlerts (dismissAlert id s)) -> Alert.id a <> id) /\
  (forall a, In a (activeAlerts (dismissAlert id s)) -> Alert.id a <> id).
Proof.
  destruct s as [dm tr sb al sn st ew ai p1 p2 p3 p4 lp th].
  unfold notificationAlerts, notificationCount, notificationCountOf, activeAlerts,
    acknowledgeAlert, dismissAlert, setAlerts. project_cells.
  split; [apply filter_unread |].
  split; [reflexivity |].
  split; [apply acknowledgeIn_active_ids |].
  split; [| split].
  - intros a Ha E. apply filter_In in Ha. destruct Ha as [Ia Hf].
    unfold acknowledgeIn in Ia. apply in_map_iff in Ia. destruct Ia as (a0 & Ea & _).
    destruct (String.eqb_spec (Alert.id a0) id) as [_ | N]; subst a.
    + discriminate Hf.
    + contradiction.
  - intros a Ha E. apply filter_In in Ha. destruct Ha as [Ia Hf].
    rewrite (dismissIn_dismissed id _ a Ia E) in Hf.
    rewrite andb_false_r in Hf. discriminate Hf.
  - intros a Ha E. unfold activeAlertsOf in Ha. apply filter_In in Ha.
    destruct Ha as [Ia Hf].
    rewrite (dismissIn_dismissed id _ a Ia E) in Hf. discriminate Hf.
Qed.

(** ** The servers panel *)

(** X17.  The last octet shown for a server's address,
    [Math.floor(Math.random() * 255)], is an integer from 0 to 254: 255 is
    never shown, and 0 and 254 are. *)
Theorem serverIpOctet_range (r : Q) :
  (0 <= r)%Q -> (r < 1)%Q ->
  0 <= serverIpOctet r <= 254 /\
  serverIpOctet 0 = 0 /\ serverIpOctet (999 # 1000) = 254.
Proof.
  intros H0 H1. unfold serverIpOctet.
  pose proof (floor_scaled r 255 H0 H1 ltac:(lia)).
  split; [lia | split; reflexivity].
Qed.

Lemma serverIpOctet_range_witness :
  (0 <= 1 # 2)%Q /\ (1 # 2 < 1)%Q /\ 0 <= serverIpOctet (1 # 2) <= 254.
Proof.
  split; [discriminate | split; [reflexivity |]].
  exact (proj1 (serverIpOctet_range (1 # 2) ltac:(discriminate) ltac:(reflexivity))).
Defined.

(** ** Growth of the alert collection *)

Lemma step_length (a : Action) (s : Dashboard) :
  List.length (alerts (step a s)) =
  (List.length (alerts s) + Nat.b2n (firesAlert a))%nat.
Proof.
  destruct s as [dm tr sb al sn st ew ai p1 p2 p3 p4 lp th].
  destruct a; cbn [step firesAlert Nat.b2n];
    try (project_cells; cbn [alerts]; lia);
    try (destruct p1, p2, p3, p4; cbn; lia).
  - cbn. unfold dismissIn. rewrite length_map. lia.
  - cbn. unfold acknowledgeIn. rewrite length_map. lia.
  - unfold handleItemClick. split_ifs; destruct p1, p2, p3, p4; cbn; lia.
  - unfold alertTimer. destruct (r0 ?= threeTenths)%Q; cbn; lia.
Qed.

(** X18.  Nothing ever takes an alert out of the collection: after any
    sequence of events it holds the alerts it held plus one for every timer
    callback whose first draw was below 0.3.  So it never shrinks and, with
    no eviction, reaches any size. *)
Theorem alerts_grow_without_bound (events : list Action) :
  forall s,
    List.length (alerts (run events s)) =
    (List.length (alerts s) + List.length (filter firesAlert events))%nat /\
    (forall n now, exists evs,
       List.length (alerts (run evs (initialDashboard now))) = (5 + n)%nat).
Proof.
  assert (L : forall evs s,
             List.length (alerts (run evs s)) =
             (List.length (alerts s) + List.length (filter firesAlert evs))%nat).
  { induction evs as [|a evs IH]; intros s; [cbn; lia |].
    change (run (a :: evs) s) with (run evs (step a s)).
    rewrite IH, step_length. cbn [filter].
    destruct (firesAlert a); cbn [List.length Nat.b2n]; lia. }
  intros s. split; [apply L |].
  intros n now.
  exists (map (fun i => AlertTimer (now + Z.of_nat i) (now + Z.of_nat i)
                          (1 # 10) (1 # 2) (1 # 2) (1 # 2)) (seq 1 n)).
  rewrite L. cbn [initialDashboard alerts generateMockAlerts List.length].
  f_equal.
  assert (F : forall l : list nat,
             List.length
               (filter firesAlert
                  (map (fun i => AlertTimer (now + Z.of_nat i) (now + Z.of_nat i)
                                   (1 # 10) (1 # 2) (1 # 2) (1 # 2)) l))
             = List.length l).
  { induction l as [|i l IH]; [reflexivity |].
    cbn [map filter firesAlert].
    change ((1 # 10 ?= threeTenths)%Q) with Lt. cbn [List.length]. rewrite IH.
    reflexivity. }
  rewrite F. apply length_seq.
Qed.
